(** * astropop.pipelines.pipeline: the pipeline engine, embedded in Rocq

    The module [src/astropop/pipelines/pipeline.py] defines six classes:
    [Config], [Product], [Instrument] (attribute stores), [ProductManager],
    [Stage] and [Processor].  Each class is a module below; each method is a
    function of the same name on an explicit state.  The package is Python 3
    (its other modules use f-strings), so every class is a new-style class
    and attribute reads are dispatched through [__getattribute__]. *)

From Stdlib Require Import ZArith String List Lia.
From stdpp Require Import base option list gmap strings.

Set Warnings "-register-all".
Open Scope Z_scope.
Open Scope string_scope.

(** ** Python values and exceptions *)

(** The values that travel through the engine.  A [dict] is a Python
    dictionary with string keys, kept in insertion order. *)
Inductive pyval : Type :=
| VNone
| VBool (b : bool)
| VInt (z : Z)
| VStr (s : string)
| VList (items : list pyval)
| VDict (kvs : list (string * pyval)).

Abbreviation dict := (list (string * pyval)).

(** The exception classes the module raises itself or provokes in the
    interpreter. *)
Inductive exn : Type :=
| ValueError (msg : string)
| RuntimeError (msg : string)
| NotImplementedError (msg : string)
| IndexError
| KeyError (key : string)
| TypeError
| AttributeError
| RecursionError.

(** A computation that returns a value or raises. *)
Inductive result (A : Type) : Type :=
| Ok (a : A)
| Raise (e : exn).
Arguments Ok {A} a.
Arguments Raise {A} e.

Definition bind {A B} (r : result A) (k : A → result B) : result B :=
  match r with
  | Ok a => k a
  | Raise e => Raise e
  end.

Notation "x ←! r ; k" := (bind r (fun x => k))
  (at level 100, r at next level, right associativity, only parsing).

(** [d.get(k)] on the association list: the first binding of [k]. *)
Fixpoint dict_lookup (d : dict) (k : string) : option pyval :=
  match d with
  | [] => None
  | (k', v) :: rest => if String.eqb k k' then Some v else dict_lookup rest k
  end.

(** [d[k] = v]: overwrite in place, or append a new key at the end. *)
Fixpoint dict_set (d : dict) (k : string) (v : pyval) : dict :=
  match d with
  | [] => [(k, v)]
  | (k', v') :: rest =>
      if String.eqb k k' then (k, v) :: rest else (k', v') :: dict_set rest k v
  end.

Definition dict_keys (d : dict) : list string := map fst d.

(** How deep dictionaries are nested in a value. *)
Fixpoint nesting (v : pyval) : nat :=
  match v with
  | VDict kvs =>
      S ((fix deepest (l : list (string * pyval)) : nat :=
            match l with
            | [] => O
            | (_, x) :: rest => Nat.max (nesting x) (deepest rest)
            end) kvs)
  | _ => O
  end.

(** Truth value of an object, as [not x] and [if x] compute it. *)
Definition truthy (v : pyval) : bool :=
  match v with
  | VNone => false
  | VBool b => b
  | VInt z => negb (Z.eqb z 0)
  | VStr s => negb (String.eqb s EmptyString)
  | VList l => negb (Nat.eqb (length l) 0)
  | VDict d => negb (Nat.eqb (length d) 0)
  end.

(** [x.keys()]: only a dict has the method. *)
Definition py_keys (x : pyval) : result (list string) :=
  match x with
  | VDict d => Ok (dict_keys d)
  | _ => Raise AttributeError
  end.

(** [x[k]] for a string key. *)
Definition py_getitem (x : pyval) (k : string) : result pyval :=
  match x with
  | VDict d =>
      match dict_lookup d k with
      | Some v => Ok v
      | None => Raise (KeyError k)
      end
  | _ => Raise TypeError
  end.

(** [x.get(k, None)], where [k] is a string or [None]; the keys of a [dict]
    are strings, so the key [None] is never bound. *)
Definition py_get (x : pyval) (k : option string) : result pyval :=
  match x with
  | VDict d =>
      match k with
      | Some s => Ok (default VNone (dict_lookup d s))
      | None => Ok VNone
      end
  | _ => Raise AttributeError
  end.

(** [l[i]] with Python's negative indices. *)
Definition py_index {A} (l : list A) (i : Z) : option A :=
  let n := Z.of_nat (length l) in
  if ((0 <=? i) && (i <? n))%Z then l !! Z.to_nat i
  else if ((- n <=? i) && (i <? 0))%Z then l !! Z.to_nat (n + i)
  else None.

(** [l.insert(i, x)] for an index that a C [ssize_t] holds: the index is
    clamped to the list.  For an index outside that range the interpreter
    raises [OverflowError] instead; the theorems about an insertion at a
    given index assume the range. *)
Definition py_insert {A} (l : list A) (i : Z) (x : A) : list A :=
  let n := Z.of_nat (length l) in
  let j := if (i <? 0)%Z then Z.max 0 (n + i) else Z.min i n in
  take (Z.to_nat j) l ++ x :: drop (Z.to_nat j) l.

(** [l.pop(i)]: the list without position [i]. *)
Definition py_pop {A} (l : list A) (i : Z) : option (list A) :=
  let n := Z.of_nat (length l) in
  let j := if (i <? 0)%Z then n + i else i in
  if ((0 <=? j) && (j <? n))%Z then Some (delete (Z.to_nat j) l) else None.

(** [iter(x)] as a [for] statement calls it: what the loop will visit. *)
Definition py_iter (x : pyval) : result (list pyval) :=
  match x with
  | VList l => Ok l
  | VDict d => Ok (map (λ kv, VStr kv.1) d)
  | VStr s => Ok (map (λ c, VStr (String c EmptyString)) (list_ascii_of_string s))
  | _ => Raise TypeError
  end.


(** ** Attribute stores: [Config], [Instrument], [Product]

    An instance is its [__dict__].  [object.__getattribute__] is the
    interpreter's own lookup: the [__dict__] descriptor, then the instance
    dictionary, then the attributes of the class. *)
Definition object__getattribute__ (class_attrs self : dict) (name : string)
  : result pyval :=
  if String.eqb name "__dict__" then Ok (VDict self)
  else match dict_lookup self name with
       | Some v => Ok v
       | None =>
           match dict_lookup class_attrs name with
           | Some v => Ok v
           | None => Raise AttributeError
           end
       end.

Module Config.

(** [frozen = False] in the class body. *)
Definition class_attrs : dict := [("frozen", VBool false)].

(** [__getattribute__(self, name)].  Its first step, [self.__dict__], is an
    attribute read on [self], so the interpreter calls this same method
    with the name ["__dict__"]; [depth] is the number of nested calls the
    interpreter still allows. *)
Fixpoint __getattribute__ (depth : nat) (self : dict) (name : string)
  : result pyval :=
  match depth with
  | O => Raise RecursionError
  | S d =>
      self_dict ←! __getattribute__ d self "__dict__";
      keys ←! py_keys self_dict;
      if bool_decide (name ∈ keys)
      then object__getattribute__ class_attrs self name
      else Ok VNone
  end.

(** [self.__dict__[name] = value], the dictionary being read through
    [__getattribute__]. *)
Definition store (depth : nat) (self : dict) (name : string) (value : pyval)
  : result dict :=
  self_dict ←! __getattribute__ depth self "__dict__";
  match self_dict with
  | VDict _ => Ok (dict_set self name value)
  | _ => Raise TypeError
  end.

(** [__setattr__(self, name, value)]. *)
Definition __setattr__ (depth : nat) (self : dict) (name : string)
  (value : pyval) : result dict :=
  frozen ←! __getattribute__ depth self "frozen";
  if negb (truthy frozen) then store depth self name value else Ok self.

(** [__init__(self, **kwargs)], from a fresh instance. *)
Definition __init__ (depth : nat) (kwargs : dict) : result dict :=
  foldl (λ acc kv, self ←! acc; store depth self kv.1 kv.2) (Ok []) kwargs.

End Config.

Module Instrument.

(** [frozen = False] in the class body. *)
Definition class_attrs : dict := [("frozen", VBool false)].

(** [__getattribute__(self, name)]: the same text as in [Config]. *)
Fixpoint __getattribute__ (depth : nat) (self : dict) (name : string)
  : result pyval :=
  match depth with
  | O => Raise RecursionError
  | S d =>
      self_dict ←! __getattribute__ d self "__dict__";
      keys ←! py_keys self_dict;
      if bool_decide (name ∈ keys)
      then object__getattribute__ class_attrs self name
      else Ok VNone
  end.

Definition store (depth : nat) (self : dict) (name : string) (value : pyval)
  : result dict :=
  self_dict ←! __getattribute__ depth self "__dict__";
  match self_dict with
  | VDict _ => Ok (dict_set self name value)
  | _ => Raise TypeError
  end.

(** [__setattr__(self, name, value)]. *)
Definition __setattr__ (depth : nat) (self : dict) (name : string)
  (value : pyval) : result dict :=
  frozen ←! __getattribute__ depth self "frozen";
  if negb (truthy frozen) then store depth self name value else Ok self.

(** [__init__(self, **kwargs)], from a fresh instance. *)
Definition __init__ (depth : nat) (kwargs : dict) : result dict :=
  foldl (λ acc kv, self ←! acc; store depth self kv.1 kv.2) (Ok []) kwargs.

End Instrument.

Module Product.

(** The class body binds no data attribute. *)
Definition class_attrs : dict := [].

(** [__getattribute__(self, name)]. *)
Fixpoint __getattribute__ (depth : nat) (self : dict) (name : string)
  : result pyval :=
  match depth with
  | O => Raise RecursionError
  | S d =>
      self_dict ←! __getattribute__ d self "__dict__";
      keys ←! py_keys self_dict;
      if bool_decide (name ∈ keys)
      then object__getattribute__ class_attrs self name
      else Ok VNone
  end.

(** [__setattr__(self, name, value)]: no freeze test, the write is
    [self.__dict__[name] = value]. *)
Definition __setattr__ (depth : nat) (self : dict) (name : string)
  (value : pyval) : result dict :=
  self_dict ←! __getattribute__ depth self "__dict__";
  match self_dict with
  | VDict _ => Ok (dict_set self name value)
  | _ => Raise TypeError
  end.

(** [__init__(self, product_manager, raw_files=[], ccddata=None, **kwargs)].
    The three assignments go through [__setattr__]; the loop over [kwargs]
    writes to [self.__dict__], which is read through [__getattribute__]. *)
Definition __init__ (depth : nat) (product_manager raw_files ccddata : pyval)
  (kwargs : dict) : result dict :=
  self ←! __setattr__ depth [] "product_manager" product_manager;
  self ←! __setattr__ depth self "raw_files" (VList []);
  self ←! __setattr__ depth self "ccddata" ccddata;
  foldl (λ acc kv, self ←! acc; __setattr__ depth self kv.1 kv.2)
        (Ok self) kwargs.

End Product.

(** ** The engine's objects

    Stage instances and products are known by their identity (an address);
    [x in l] and [l.remove(x)] compare identities, since neither class
    defines [__eq__]. *)

(** A [ProductManager] instance.  Its [processor] attribute is the one
    processor of the [World] below. *)
Record ManagerObj : Type := {
  products : list nat;
  iterating : bool
}.

(** What the methods of [Stage] bind on an instance: [parent] and [name]
    ([None] until [add_children] assigns them, the class body's default),
    and the private state of the concrete subclass, opaque to [Stage]. *)
Record StageObj : Type := {
  stage_parent : option nat;
  stage_name : option string;
  stage_state : pyval
}.

(** A [Processor] instance: the six attributes [__init__] binds, and
    [bound], the attributes some other code has bound on the instance. *)
Record ProcessorObj : Type := {
  prod_manager : ManagerObj;
  instrument : pyval;
  config_dict : dict;
  _stages : list (string * nat);
  _processing_stage : option Z;
  running : bool;
  bound : dict
}.

(** The program state: the processor, the list object that the class
    attribute [Stage._children] names, the stage instances, and a ghost log
    of the calls of [run], each with the configuration it received. *)
Record World : Type := {
  processor : ProcessorObj;
  Stage_children : list nat;
  stage_objs : gmap nat StageObj;
  calls : list (nat * pyval)
}.

(** How a call ends: normally, or with an exception in flight; both leave a
    state behind. *)
Inductive outcome : Type :=
| Done (w : World)
| Raised (e : exn) (w : World).

Definition with_processor (p : ProcessorObj) (w : World) : World :=
  {| processor := p; Stage_children := Stage_children w;
     stage_objs := stage_objs w; calls := calls w |}.

Definition with_children (l : list nat) (w : World) : World :=
  {| processor := processor w; Stage_children := l;
     stage_objs := stage_objs w; calls := calls w |}.

Definition with_stage_objs (m : gmap nat StageObj) (w : World) : World :=
  {| processor := processor w; Stage_children := Stage_children w;
     stage_objs := m; calls := calls w |}.

Definition with_calls (c : list (nat * pyval)) (w : World) : World :=
  {| processor := processor w; Stage_children := Stage_children w;
     stage_objs := stage_objs w; calls := c |}.

Module ProductManager.

(** [__init__(self, processor)]. *)
Definition __init__ : ManagerObj := {| products := []; iterating := false |}.

Definition with_iterating (b : bool) (self : ManagerObj) : ManagerObj :=
  {| products := products self; iterating := b |}.

Definition with_products (l : list nat) (self : ManagerObj) : ManagerObj :=
  {| products := l; iterating := iterating self |}.

(** The property [number_of_products]. *)
Definition number_of_products (self : ManagerObj) : Z :=
  Z.of_nat (length (products self)).

(** [add_product(self, product, index=None)]. *)
Definition add_product (product : nat) (index : option Z) (self : ManagerObj)
  : result ManagerObj :=
  if bool_decide (product ∈ products self)
  then Raise (ValueError "Product already in the manager.")
  else if iterating self
  then Raise (RuntimeError
                "Insert product in index while iterating not allowed.")
  else match index with
       | Some i => Ok (with_products (py_insert (products self) i product) self)
       | None => Ok (with_products (products self ++ [product]) self)
       end.

(** [l.remove(x)]: drops the first occurrence. *)
Fixpoint list_remove (x : nat) (l : list nat) : option (list nat) :=
  match l with
  | [] => None
  | y :: rest =>
      if Nat.eqb x y then Some rest
      else match list_remove x rest with
           | Some rest' => Some (y :: rest')
           | None => None
           end
  end.

(** [del_product(self, product)]. *)
Definition del_product (product : nat) (self : ManagerObj)
  : result ManagerObj :=
  match list_remove product (products self) with
  | Some l => Ok (with_products l self)
  | None => Raise (ValueError "list.remove(x): x not in list")
  end.

(** [product(self, index)]. *)
Definition product (index : Z) (self : ManagerObj) : result nat :=
  match py_index (products self) index with
  | Some p => Ok p
  | None => Raise IndexError
  end.

(** [iterate_products] is a generator function: calling it runs nothing
    and returns a generator in the frame [Created]; each [next] runs the
    body up to the following [yield], where the frame is suspended with
    its local [i]. *)
Inductive frame : Type :=
| Created
| Suspended (i : Z)
| Finished.

Inductive event : Type :=
| Yield (p : nat)
| StopIteration
| Throw (e : exn).

Definition iterate_products : frame := Created.

(** The [while i < self.number_of_products] loop, entered with local [i]:
    up to the [yield], or through [self.iterating = False] to the end. *)
Definition loop (i : Z) (self : ManagerObj) : event * frame * ManagerObj :=
  if (i <? number_of_products self)%Z
  then match py_index (products self) i with
       | Some p => (Yield p, Suspended i, self)
       | None => (Throw IndexError, Finished, self)
       end
  else (StopIteration, Finished, with_iterating false self).

(** [next(gen)]. *)
Definition next (g : frame) (self : ManagerObj) : event * frame * ManagerObj :=
  match g with
  | Created =>
      if (number_of_products self =? 0)%Z
      then (Throw (ValueError "No products available in this product manager."),
            Finished, self)
      else loop 0 (with_iterating true self)
  | Suspended i => loop (i + 1) self
  | Finished => (StopIteration, Finished, self)
  end.

(** [for p in gen: ...] with a body that only looks: the items in the
    order they are yielded, each paired with the value of the guard
    [iterating] while the generator is suspended on it; then the exception
    that ended the loop, if any, and the manager it leaves. *)
Fixpoint consume (fuel : nat) (g : frame) (self : ManagerObj)
  : option (list (nat * bool) * option exn * ManagerObj) :=
  match fuel with
  | O => None
  | S f =>
      match next g self with
      | (Yield p, g', self') =>
          match consume f g' self' with
          | Some (items, e, final) =>
              Some ((p, iterating self') :: items, e, final)
          | None => None
          end
      | (StopIteration, _, self') => Some ([], None, self')
      | (Throw e, _, self') => Some ([], Some e, self')
      end
  end.

End ProductManager.


Module Stage.

(** The class body: [parent = None], [name = None]. *)
Definition blank : StageObj :=
  {| stage_parent := None; stage_name := None; stage_state := VNone |}.

(** The instance at an address; one that nothing was bound on yet shows the
    defaults of the class. *)
Definition obj (w : World) (a : nat) : StageObj :=
  default blank (stage_objs w !! a).

Definition set_obj (a : nat) (o : StageObj) (w : World) : World :=
  with_stage_objs (<[a := o]> (stage_objs w)) w.

(** [x.parent = p] and [x.name = n]: plain instance attributes. *)
Definition set_parent (a : nat) (p : option nat) (w : World) : World :=
  set_obj a {| stage_parent := p; stage_name := stage_name (obj w a);
               stage_state := stage_state (obj w a) |} w.

Definition set_name (a : nat) (n : option string) (w : World) : World :=
  set_obj a {| stage_parent := stage_parent (obj w a); stage_name := n;
               stage_state := stage_state (obj w a) |} w.

Definition set_state (a : nat) (v : pyval) (w : World) : World :=
  set_obj a {| stage_parent := stage_parent (obj w a);
               stage_name := stage_name (obj w a); stage_state := v |} w.

(** [self._children].  [_children = []] is bound once, in the class body, and
    no method binds the name on an instance, so for every [self] the read
    finds the list of the class. *)
Definition _children (w : World) (self : nat) : list nat := Stage_children w.

(** [add_children(self, name, stage)]. *)
Definition add_children (self : nat) (name : string) (stage : nat) (w : World)
  : outcome :=
  if bool_decide (stage ∉ _children w self)
  then
    let w1 := with_children (_children w self ++ [stage]) w in
    let w2 := set_parent stage (Some self) w1 in
    Done (set_name stage (Some name) w2)
  else Done w.

(** [remove_children(self, stage)]. *)
Definition remove_children (self : nat) (stage : nat) (w : World) : outcome :=
  match ProductManager.list_remove stage (_children w self) with
  | Some l => Done (set_parent stage None (with_children l w))
  | None => Raised (ValueError "list.remove(x): x not in list") w
  end.

(** [run(self, product, config=None, instrument=None)] of the base class. *)
Definition run (self product : nat) (config instrument : pyval) (w : World)
  : outcome :=
  Raised (NotImplementedError "Stage not implemented.") w.

(** The ghost log: [self.run] is entered with [config]. *)
Definition log_call (self : nat) (config : pyval) (w : World) : World :=
  with_calls (calls w ++ [(self, config)]) w.

Section Dispatch.

(** [run_method a] is the [run] that the class of the instance [a] defines:
    the override of a concrete subclass, or [run] above. *)
Variable run_method : nat → nat → pyval → pyval → World → outcome.

(** [__call__(self, product, config=None, instrument=None)] and
    [_run_children(self, product, config=None, instrument=None)].  The [for]
    statement walks the list object by position, so it sees what the calls
    it makes append or remove.  [None] is a run that needs more fuel.  The
    fuel is the only bound on the nesting of the calls: the recursion limit
    of the interpreter is not part of these two functions, and a theorem
    that follows a configuration through all its levels assumes that the
    nesting fits under the limit. *)
Fixpoint __call__ (fuel : nat) (self product : nat) (config instrument : pyval)
  (w : World) : option outcome :=
  match fuel with
  | O => None
  | S f =>
      match run_method self product config instrument (log_call self config w) with
      | Raised e w1 => Some (Raised e w1)
      | Done w1 => _run_children f 0 self product config instrument w1
      end
  end
with _run_children (fuel : nat) (pos : nat) (self product : nat)
  (config instrument : pyval) (w : World) : option outcome :=
  match fuel with
  | O => None
  | S f =>
      match _children w self !! pos with
      | None => Some (Done w)
      | Some i =>
          match py_get config (stage_name (obj w i)) with
          | Raise e => Some (Raised e w)
          | Ok conf =>
              match __call__ f i product conf instrument w with
              | Some (Done w1) =>
                  _run_children f (S pos) self product config instrument w1
              | r => r
              end
          end
      end
  end.

End Dispatch.

End Stage.

(** An argument that should be a stage: a [Stage] instance, or anything
    else. *)
Inductive pyobj : Type :=
| StageRef (a : nat)
| Other (v : pyval).

Module Processor.

(** [__init__(self, config_file=None)]. *)
Definition __init__ : ProcessorObj :=
  {| prod_manager := ProductManager.__init__; instrument := VNone;
     config_dict := []; _stages := []; _processing_stage := None;
     running := false; bound := [] |}.

Definition with_stages (l : list (string * nat)) (self : ProcessorObj)
  : ProcessorObj :=
  {| prod_manager := prod_manager self; instrument := instrument self;
     config_dict := config_dict self; _stages := l;
     _processing_stage := _processing_stage self; running := running self;
     bound := bound self |}.

Definition with_pointer (i : option Z) (self : ProcessorObj) : ProcessorObj :=
  {| prod_manager := prod_manager self; instrument := instrument self;
     config_dict := config_dict self; _stages := _stages self;
     _processing_stage := i; running := running self; bound := bound self |}.

Definition with_running (b : bool) (self : ProcessorObj) : ProcessorObj :=
  {| prod_manager := prod_manager self; instrument := instrument self;
     config_dict := config_dict self; _stages := _stages self;
     _processing_stage := _processing_stage self; running := b;
     bound := bound self |}.

Definition with_manager (m : ManagerObj) (self : ProcessorObj) : ProcessorObj :=
  {| prod_manager := m; instrument := instrument self;
     config_dict := config_dict self; _stages := _stages self;
     _processing_stage := _processing_stage self; running := running self;
     bound := bound self |}.

Definition with_bound (d : dict) (self : ProcessorObj) : ProcessorObj :=
  {| prod_manager := prod_manager self; instrument := instrument self;
     config_dict := config_dict self; _stages := _stages self;
     _processing_stage := _processing_stage self; running := running self;
     bound := d |}.

(** The property [number_of_stages]. *)
Definition number_of_stages (self : ProcessorObj) : Z :=
  Z.of_nat (length (_stages self)).

(** The property [processing_index]. *)
Definition processing_index (self : ProcessorObj) : option Z :=
  _processing_stage self.

(** [self.config].  Neither the class body nor [__init__] binds [config]
    ([__init__] binds [config_dict]); the read succeeds only when other code
    has bound the name on the instance. *)
Definition config (self : ProcessorObj) : result pyval :=
  match dict_lookup (bound self) "config" with
  | Some v => Ok v
  | None => Raise AttributeError
  end.

(** [set_current_stage(self, index)]. *)
Definition set_current_stage (index : Z) (self : ProcessorObj)
  : result ProcessorObj :=
  if negb (running self)
  then Raise (ValueError
         "Current stage set only available when pipeline is running.")
  else Ok (with_pointer (Some index) self).

(** [name in t] for an entry [t = (stage_name, stage)] of the stage list: a
    string equals the first component or nothing, the second being a
    [Stage] instance. *)
Definition name_in_entry (name : string) (t : string * nat) : bool :=
  String.eqb name t.1 || false.

(** [add_stage(self, name, stage, index=None)].  [self._stages[:]] is a copy
    of the list and [[0]] its first entry. *)
Definition add_stage (name : string) (stage : pyobj) (index : option Z)
  (self : ProcessorObj) : result ProcessorObj :=
  match py_index (_stages self) 0 with
  | None => Raise IndexError
  | Some first =>
      if name_in_entry name first
      then Raise (ValueError ("Stage " ++ name ++ " already in the pipeline."))
      else if running self
      then Raise (RuntimeError "Pipeline running, cannot add stages.")
      else match stage with
           | Other _ => Raise (ValueError "Not a valid Stage.")
           | StageRef a =>
               match index with
               | Some i => Ok (with_stages (py_insert (_stages self) i (name, a)) self)
               | None => Ok (with_stages (_stages self ++ [(name, a)]) self)
               end
           end
  end.

(** The body of the [for] statement of [get_index], over the items the
    iterator delivers. *)
Fixpoint get_index_loop (items : list pyval) (name : string)
  (self : ProcessorObj) : result (option Z) :=
  match items with
  | [] => Ok None
  | VInt i :: rest =>
      match py_index (_stages self) i with
      | None => Raise IndexError
      | Some entry =>
          if String.eqb entry.1 name then Ok (Some i)
          else get_index_loop rest name self
      end
  | _ :: _ => Raise TypeError
  end.

(** [get_index(self, name)]: [for i in self.number_of_stages]. *)
Definition get_index (name : string) (self : ProcessorObj)
  : result (option Z) :=
  items ←! py_iter (VInt (number_of_stages self));
  get_index_loop items name self.

(** [remove_stage(self, name)]. *)
Definition remove_stage (name : string) (self : ProcessorObj)
  : result ProcessorObj :=
  if running self
  then Raise (RuntimeError "Pipeline running, cannot remove stages.")
  else
    index ←! get_index name self;
    match index with
    | None => Raise TypeError
    | Some i =>
        match py_pop (_stages self) i with
        | Some l => Ok (with_stages l self)
        | None => Raise IndexError
        end
    end.

Section Run.

Variable run_method : nat → nat → pyval → pyval → World → outcome.

(** The [while] loop of [run] for the product [prod]. *)
Fixpoint run_stages (fuel : nat) (prod : nat) (w : World) : option outcome :=
  match fuel with
  | O => None
  | S f =>
      let self := processor w in
      match _processing_stage self with
      | None => Some (Raised TypeError w)
      | Some ip =>
          if (ip <? number_of_stages self)%Z
          then
            match py_index (_stages self) ip with
            | None => Some (Raised IndexError w)
            | Some (stage_name, stage) =>
                let self1 := with_pointer (Some (ip + 1)) self in
                let w1 := with_processor self1 w in
                match (c ←! config self1;
                       keys ←! py_keys c;
                       if bool_decide (stage_name ∈ keys)
                       then (c' ←! config self1; py_getitem c' stage_name)
                       else Ok VNone) with
                | Raise e => Some (Raised e w1)
                | Ok conf =>
                    match Stage.__call__ run_method f stage prod conf
                            (instrument self1) w1 with
                    | Some (Done w2) => run_stages f prod w2
                    | r => r
                    end
                end
            end
          else Some (Done w)
      end
  end.

(** The [for prod in self.prod_manager.products] loop. *)
Fixpoint run_products (fuel : nat) (pos : nat) (w : World) : option outcome :=
  match fuel with
  | O => None
  | S f =>
      match products (prod_manager (processor w)) !! pos with
      | None => Some (Done w)
      | Some prod =>
          let w1 := with_processor (with_pointer (Some 0) (processor w)) w in
          match run_stages f prod w1 with
          | Some (Done w2) => run_products f (S pos) w2
          | r => r
          end
      end
  end.

(** [run(self, **runargs)]. *)
Definition run (fuel : nat) (w : World) : option outcome :=
  let self := processor w in
  if (number_of_stages self =? 0)%Z
  then Some (Raised (ValueError "This pipeline has no stages.") w)
  else if (ProductManager.number_of_products (prod_manager self) =? 0)%Z
  then Some (Raised (ValueError "This pipeline has no products.") w)
  else
    match run_products fuel 0 (with_processor (with_running true self) w) with
    | Some (Done w1) =>
        Some (Done (with_processor
                      (with_pointer None (with_running false (processor w1))) w1))
    | r => r
    end.

End Run.

End Processor.

(** ** Concrete stages and states used by the examples *)

(** A concrete stage whose [run] override does nothing. *)
Definition passive_run (self product : nat) (config instrument : pyval)
  (w : World) : outcome :=
  Done w.

(** A concrete stage whose [run] override calls
    [processor.set_current_stage(0)] on its first call and nothing later; it
    remembers the first call in its private state. *)
Definition loop_once_run (self product : nat) (config instrument : pyval)
  (w : World) : outcome :=
  match stage_state (Stage.obj w self) with
  | VNone =>
      let w1 := Stage.set_state self (VBool true) w in
      match Processor.set_current_stage 0 (processor w1) with
      | Ok p => Done (with_processor p w1)
      | Raise e => Raised e w1
      end
  | _ => Done w
  end.

(** The state right after [Processor()], no stage instance touched yet. *)
Definition fresh_world : World :=
  {| processor := Processor.__init__; Stage_children := [];
     stage_objs := ∅; calls := [] |}.

(** Stages [A], [B], [C] at the addresses 1, 2, 3: [B] loops back once, [A]
    and [C] are passive. *)
Definition abc_run (self : nat) : nat → pyval → pyval → World → outcome :=
  if Nat.eqb self 2 then loop_once_run self else passive_run self.

(** A processor holding the stage list [[("A", 1); ("B", 2); ("C", 3)]] and
    the single product 7. *)
Definition abc_processor : ProcessorObj :=
  Processor.with_manager
    (ProductManager.with_products [7%nat] ProductManager.__init__)
    (Processor.with_stages [("A", 1%nat); ("B", 2%nat); ("C", 3%nat)]
       Processor.__init__).

Definition abc_world : World := with_processor abc_processor fresh_world.

(** The same processor after other code has run
    [processor.config = {"A": {"gain": 2}, "C": {"bias": 5}}]. *)
Definition abc_config : pyval :=
  VDict [("A", VDict [("gain", VInt 2)]); ("C", VDict [("bias", VInt 5)])].

Definition abc_world_configured : World :=
  with_processor
    (Processor.with_bound [("config", abc_config)] abc_processor) fresh_world.

(** A stage 10 with the children 11 (named [X]) and 12 (named [Y]), added in
    that order, and a configuration with a sub-config for each. *)
Definition xy_world : World :=
  match Stage.add_children 10 "X" 11 fresh_world with
  | Done w1 =>
      match Stage.add_children 10 "Y" 12 w1 with
      | Done w2 => w2
      | Raised _ w2 => w2
      end
  | Raised _ w1 => w1
  end.

Definition cfgX : pyval := VDict [("gain", VInt 2)].
Definition cfgY : pyval := VDict [("bias", VInt 5)].
Definition xy_config : pyval := VDict [("X", cfgX); ("Y", cfgY)].

(** A stage list with two entries, for the list operations. *)
Definition two_stage_processor : ProcessorObj :=
  Processor.with_stages [("a", 1%nat); ("b", 2%nat)] Processor.__init__.

(** ** Client code, to state how the operations compose *)

(** A concrete stage whose [run] override calls
    [processor.set_current_stage(target)] on every call. *)
Definition jump_run (target : Z) (self product : nat)
  (config instrument : pyval) (w : World) : outcome :=
  match Processor.set_current_stage target (processor w) with
  | Ok p => Done (with_processor p w)
  | Raise e => Raised e w
  end.

(** The stage at the address [s0] jumps, every other stage is passive. *)
Definition jumper_run (s0 : nat) (target : Z) (self : nat)
  : nat → pyval → pyval → World → outcome :=
  if Nat.eqb self s0 then jump_run target self else passive_run self.

(** A call of [add_stage] or [remove_stage] made inside [try: ... except:
    pass]: a call that raises leaves the processor as it was. *)
Inductive stage_edit : Type :=
| AddStage (name : string) (stage : pyobj) (index : option Z)
| RemoveStage (name : string).

Definition try_edit (self : ProcessorObj) (e : stage_edit) : ProcessorObj :=
  match e with
  | AddStage name stage index =>
      match Processor.add_stage name stage index self with
      | Ok self' => self'
      | Raise _ => self
      end
  | RemoveStage name =>
      match Processor.remove_stage name self with
      | Ok self' => self'
      | Raise _ => self
      end
  end.

(** What [run] passes as configuration to the stage called [name] when
    [self.config] is the dictionary [d]. *)
Definition config_for (d : dict) (name : string) : pyval :=
  default VNone (dict_lookup d name).

(** ** Limits of the interpreter that some theorems assume *)

(** An index that a C [ssize_t] holds on a 64-bit build, or no index;
    [list.insert] raises [OverflowError] for any other index. *)
Definition ssize_t_index (index : option Z) : Prop :=
  match index with
  | Some i => (- 2 ^ 63 ≤ i < 2 ^ 63)%Z
  | None => True
  end.



(** ** Attribute stores *)

Lemma Config_getattribute_raises (depth : nat) (self : dict) (name : string) :
  Config.__getattribute__ depth self name = Raise RecursionError.
Proof.
  revert name. induction depth as [|d IH]; intros name; simpl.
  - reflexivity.
  - rewrite IH. reflexivity.
Qed.

Lemma Instrument_getattribute_raises (depth : nat) (self : dict) (name : string) :
  Instrument.__getattribute__ depth self name = Raise RecursionError.
Proof.
  revert name. induction depth as [|d IH]; intros name; simpl.
  - reflexivity.
  - rewrite IH. reflexivity.
Qed.

Lemma Product_getattribute_raises (depth : nat) (self : dict) (name : string) :
  Product.__getattribute__ depth self name = Raise RecursionError.
Proof.
  revert name. induction depth as [|d IH]; intros name; simpl.
  - reflexivity.
  - rewrite IH. reflexivity.
Qed.

Lemma Product_setattr_raises (depth : nat) (self : dict) (name : string)
  (value : pyval) :
  Product.__setattr__ depth self name value = Raise RecursionError.
Proof.
  unfold Product.__setattr__. rewrite Product_getattribute_raises. reflexivity.
Qed.

(** C7: the claim is that a read of a name never set returns [None] and
    never raises.  On the code every read raises: in each of the three
    classes [__getattribute__] starts with [self.__dict__], itself a read
    dispatched to [__getattribute__], so whatever the interpreter's
    recursion limit and whatever the instance and the name, the call ends in
    [RecursionError]. *)
Theorem C7_every_read_raises_RecursionError :
  ∀ (depth : nat) (self : dict) (name : string),
    Config.__getattribute__ depth self name = Raise RecursionError
    ∧ Instrument.__getattribute__ depth self name = Raise RecursionError
    ∧ Product.__getattribute__ depth self name = Raise RecursionError.
Proof.
  intros depth self name. split; [|split].
  - apply Config_getattribute_raises.
  - apply Instrument_getattribute_raises.
  - apply Product_getattribute_raises.
Qed.

(** C6: the claim is that a frozen store ignores a write silently and that
    [set('x',1); freeze(); set('x',2); get('x')] gives 1.  On the code every
    write raises [RecursionError], frozen or not: [__setattr__] tests
    [self.frozen], a read through [__getattribute__].  The first [set] of
    the scenario already fails. *)
Theorem C6_every_write_raises_RecursionError :
  ∀ (depth : nat) (self : dict) (name : string) (value : pyval),
    Config.__setattr__ depth self name value = Raise RecursionError
    ∧ Instrument.__setattr__ depth self name value = Raise RecursionError.
Proof.
  intros depth self name value.
  unfold Config.__setattr__, Instrument.__setattr__.
  rewrite Config_getattribute_raises, Instrument_getattribute_raises.
  split; reflexivity.
Qed.

(** C10: the claim is that the constructed [Product] has an empty
    [raw_files] whatever was passed.  On the code no [Product] is
    constructed: the first assignment of [__init__] goes through
    [__setattr__], which reads [self.__dict__] through [__getattribute__],
    and the call ends in [RecursionError] for every argument. *)
Theorem C10_Product_init_raises_RecursionError :
  ∀ (depth : nat) (product_manager raw_files ccddata : pyval) (kwargs : dict),
    Product.__init__ depth product_manager raw_files ccddata kwargs
    = Raise RecursionError.
Proof.
  intros depth pm raw ccd kwargs. unfold Product.__init__.
  rewrite Product_setattr_raises. reflexivity.
Qed.

(** A [Config] or an [Instrument] can be constructed with no keyword
    argument (the loop of [__init__] has nothing to write), and only so. *)
Lemma Config_init_empty (depth : nat) : Config.__init__ depth [] = Ok [].
Proof. reflexivity. Qed.

Lemma Config_init_nonempty (depth : nat) (k : string) (v : pyval) (rest : dict) :
  Config.__init__ depth ((k, v) :: rest) = Raise RecursionError.
Proof.
  unfold Config.__init__. simpl. unfold Config.store at 2.
  rewrite Config_getattribute_raises. simpl.
  induction rest as [|kv rest IH]; simpl; [reflexivity | exact IH].
Qed.

(** ** The stage list of the processor *)

(** C3: on a processor whose stage list is empty, [add_stage] fails with
    [IndexError] for every name, stage and index: the duplicate test reads
    entry 0 of a copy of the empty list.  Nothing is inserted, the call
    returns no new state. *)
Theorem C3_add_stage_on_empty_list_raises_IndexError :
  ∀ (self : ProcessorObj) (name : string) (stage : pyobj) (index : option Z),
    _stages self = [] →
    Processor.add_stage name stage index self = Raise IndexError.
Proof.
  intros self name stage index Hempty.
  unfold Processor.add_stage. rewrite Hempty. reflexivity.
Qed.

Lemma C3_add_stage_on_empty_list_witness :
  _stages Processor.__init__ = []
  ∧ Processor.add_stage "bias" (StageRef 1) None Processor.__init__
    = Raise IndexError.
Proof.
  split.
  - reflexivity.
  - apply (C3_add_stage_on_empty_list_raises_IndexError
             Processor.__init__ "bias" (StageRef 1) None).
    reflexivity.
Defined.

(** [get_index] raises [TypeError] on every processor: its [for] statement
    iterates over the integer [number_of_stages]. *)
Lemma get_index_raises (name : string) (self : ProcessorObj) :
  Processor.get_index name self = Raise TypeError.
Proof. reflexivity. Qed.

(** So [remove_stage] never removes: outside a run it raises [TypeError],
    during a run [RuntimeError]. *)
Lemma remove_stage_idle (name : string) (self : ProcessorObj) :
  running self = false → Processor.remove_stage name self = Raise TypeError.
Proof. intros H. unfold Processor.remove_stage. rewrite H. reflexivity. Qed.

Lemma remove_stage_running (name : string) (self : ProcessorObj) :
  running self = true →
  Processor.remove_stage name self
  = Raise (RuntimeError "Pipeline running, cannot remove stages.").
Proof. intros H. unfold Processor.remove_stage. rewrite H. reflexivity. Qed.

(** [add_stage] while running: [RuntimeError], provided the list is not
    empty and the name is not that of its first entry. *)
Lemma add_stage_running (name : string) (stage : pyobj) (index : option Z)
  (self : ProcessorObj) (first : string * nat) (rest : list (string * nat)) :
  _stages self = first :: rest →
  name ≠ first.1 →
  running self = true →
  Processor.add_stage name stage index self
  = Raise (RuntimeError "Pipeline running, cannot add stages.").
Proof.
  intros Hs Hne Hrun. unfold Processor.add_stage, py_index.
  rewrite Hs. simpl length.
  replace ((0 <=? 0)%Z && (0 <? Z.of_nat (S (length rest)))%Z) with true
    by (symmetry; apply andb_true_iff; split; [reflexivity | apply Z.ltb_lt; lia]).
  simpl. unfold Processor.name_in_entry.
  destruct (String.eqb_spec name first.1) as [Heq|_]; [contradiction|].
  simpl. rewrite Hrun. reflexivity.
Qed.

(** The duplicate test looks at the first entry only. *)
Lemma add_stage_first_name (stage : pyobj) (index : option Z)
  (self : ProcessorObj) (first : string * nat) (rest : list (string * nat)) :
  _stages self = first :: rest →
  Processor.add_stage first.1 stage index self
  = Raise (ValueError ("Stage " ++ first.1 ++ " already in the pipeline.")).
Proof.
  intros Hs. unfold Processor.add_stage, py_index.
  rewrite Hs. simpl length.
  replace ((0 <=? 0)%Z && (0 <? Z.of_nat (S (length rest)))%Z) with true
    by (symmetry; apply andb_true_iff; split; [reflexivity | apply Z.ltb_lt; lia]).
  simpl. unfold Processor.name_in_entry. rewrite String.eqb_refl. reflexivity.
Qed.

(** C4: the claim is that [add_stage] rejects a name already in the list and
    that [remove_stage] removes the entry of a present name and reports an
    absent one as not found.  On the list [[("a", 1); ("b", 2)]], idle:
    [add_stage("b", s)] appends a second ["b"]; [remove_stage("a")] and
    [remove_stage("zz")] both raise [TypeError] and remove nothing. *)
Theorem C4_duplicate_added_and_remove_raises_TypeError :
  Processor.add_stage "b" (StageRef 3) None two_stage_processor
  = Ok (Processor.with_stages [("a", 1%nat); ("b", 2%nat); ("b", 3%nat)]
          two_stage_processor)
  ∧ Processor.remove_stage "a" two_stage_processor = Raise TypeError
  ∧ Processor.remove_stage "zz" two_stage_processor = Raise TypeError.
Proof. repeat split. Qed.

(** ** The children of a stage *)

Lemma set_obj_lookup (a : nat) (o : StageObj) (w : World) :
  Stage.obj (Stage.set_obj a o w) a = o.
Proof.
  unfold Stage.obj, Stage.set_obj. simpl. rewrite lookup_insert_eq. reflexivity.
Qed.

(** C9, as the code has it: a stage already in the children list is left as
    it is and the call returns normally with the state unchanged; any other
    stage is appended to the list, gets the given name and gets the
    receiving stage as its parent. *)
Theorem C9_add_children_appends_or_ignores :
  ∀ (w : World) (self : nat) (name : string) (stage : nat),
    (stage ∈ Stage._children w self →
       Stage.add_children self name stage w = Done w)
    ∧ (stage ∉ Stage._children w self →
       ∃ w', Stage.add_children self name stage w = Done w'
             ∧ Stage._children w' self = (Stage._children w self ++ [stage])%list
             ∧ stage_name (Stage.obj w' stage) = Some name
             ∧ stage_parent (Stage.obj w' stage) = Some self).
Proof.
  intros w self name stage. unfold Stage.add_children. split.
  - intros Hin. rewrite bool_decide_eq_false_2; [reflexivity|].
    intros Hout. apply Hout. exact Hin.
  - intros Hout. rewrite bool_decide_eq_true_2 by exact Hout.
    eexists. split; [reflexivity|]. split; [reflexivity|].
    unfold Stage.set_name, Stage.set_parent.
    rewrite !set_obj_lookup. simpl. split; reflexivity.
Qed.

Lemma C9_add_children_witness :
  (11%nat ∈ Stage._children xy_world 10 →
     Stage.add_children 10 "again" 11 xy_world = Done xy_world)
  ∧ (11%nat ∉ Stage._children fresh_world 10 →
     ∃ w', Stage.add_children 10 "X" 11 fresh_world = Done w'
           ∧ Stage._children w' 10 = (Stage._children fresh_world 10 ++ [11%nat])%list
           ∧ stage_name (Stage.obj w' 11) = Some "X"
           ∧ stage_parent (Stage.obj w' 11) = Some 10%nat).
Proof.
  split.
  - apply (C9_add_children_appends_or_ignores xy_world 10 "again" 11).
  - apply (C9_add_children_appends_or_ignores fresh_world 10 "X" 11).
Defined.

(** C9, counterexample to the claim that adding a stage that is already a
    child fails with a duplicate error: stage 11 is a child in [xy_world],
    and adding it again returns normally, with no exception and no change
    (its name stays ["X"]). *)
Lemma C9_duplicate_child_is_not_an_error :
  11%nat ∈ Stage._children xy_world 10
  ∧ Stage.add_children 10 "again" 11 xy_world = Done xy_world
  ∧ (∀ e w', Stage.add_children 10 "again" 11 xy_world ≠ Raised e w')
  ∧ stage_name (Stage.obj xy_world 11) = Some "X".
Proof.
  assert (Hin : 11%nat ∈ Stage._children xy_world 10).
  { change (11%nat ∈ [11%nat; 12%nat]). apply list_elem_of_here. }
  assert (Hrun : Stage.add_children 10 "again" 11 xy_world = Done xy_world)
    by (unfold Stage.add_children;
        rewrite bool_decide_eq_false_2; [reflexivity | intros Hout; exact (Hout Hin)]).
  split; [exact Hin|]. split; [exact Hrun|]. split.
  - intros e w' Heq. rewrite Hrun in Heq. discriminate Heq.
  - reflexivity.
Qed.

(** ** Iterating over the products *)

Lemma py_index_middle {A} (pre : list A) (x : A) (rest : list A) :
  py_index (pre ++ x :: rest)%list (Z.of_nat (length pre)) = Some x.
Proof.
  unfold py_index. rewrite length_app. simpl length.
  assert (H0 : (0 <=? Z.of_nat (length pre))%Z = true) by (apply Z.leb_le; lia).
  assert (H1 : (Z.of_nat (length pre)
                <? Z.of_nat (length pre + S (length rest)))%Z = true)
    by (apply Z.ltb_lt; lia).
  rewrite H0, H1. simpl. rewrite Nat2Z.id. apply list_lookup_middle. reflexivity.
Qed.

(** Resuming a generator suspended on the item after [pre], with the guard
    set: the remaining items come out in order, the guard is seen set at
    each of them, and the generator ends normally with the guard cleared. *)
Lemma consume_suspended (rest pre : list nat) (p : nat) (self : ManagerObj)
  (fuel : nat) :
  products self = (pre ++ p :: rest)%list →
  iterating self = true →
  (length rest < fuel)%nat →
  ProductManager.consume fuel
    (ProductManager.Suspended (Z.of_nat (length pre))) self
  = Some (map (λ q, (q, true)) rest, None,
          ProductManager.with_iterating false self).
Proof.
  revert pre p fuel.
  induction rest as [|q rest IH]; intros pre p fuel Hprod Hguard Hfuel;
    destruct fuel as [|f]; try (simpl in Hfuel; lia).
  - simpl. unfold ProductManager.loop, ProductManager.number_of_products.
    rewrite Hprod, length_app. simpl length.
    replace (Z.of_nat (length pre) + 1 <? Z.of_nat (length pre + 1))%Z
      with false by (symmetry; apply Z.ltb_ge; lia).
    reflexivity.
  - simpl ProductManager.consume.
    unfold ProductManager.loop, ProductManager.number_of_products.
    assert (Hprod' : products self = ((pre ++ [p]) ++ q :: rest)%list)
      by (rewrite Hprod, <- app_assoc; reflexivity).
    assert (Hpos : (Z.of_nat (length pre) + 1)%Z
                   = Z.of_nat (length (pre ++ [p])%list))
      by (rewrite length_app; simpl length; lia).
    rewrite Hpos.
    rewrite Hprod' at 2. rewrite py_index_middle.
    replace (Z.of_nat (length (pre ++ [p])%list)
             <? Z.of_nat (length (products self)))%Z
      with true
      by (symmetry; apply Z.ltb_lt; rewrite Hprod', !length_app;
          simpl length; lia).
    rewrite (IH (pre ++ [p])%list q f Hprod' Hguard) by (simpl in Hfuel; lia).
    rewrite Hguard. reflexivity.
Qed.

(** C8: iterating over a manager with no product fails with the
    [ValueError] of the empty manager at the first [next]; over a manager
    with the members [p :: rest] the loop receives exactly these items in
    insertion order, sees the guard [iterating] set at each of them, ends
    normally, and leaves the manager with the guard cleared and the
    products as they were. *)
Theorem C8_iterate_products :
  ∀ (self : ManagerObj) (fuel : nat),
    (length (products self) < fuel)%nat →
    match products self with
    | [] =>
        ProductManager.consume fuel ProductManager.iterate_products self
        = Some ([], Some (ValueError
                   "No products available in this product manager."), self)
    | _ :: _ =>
        ProductManager.consume fuel ProductManager.iterate_products self
        = Some (map (λ q, (q, true)) (products self), None,
                ProductManager.with_iterating false self)
        ∧ length (map (λ q, (q, true)) (products self))
          = length (products self)
        ∧ iterating (ProductManager.with_iterating false self) = false
        ∧ products (ProductManager.with_iterating false self) = products self
    end.
Proof.
  intros self fuel Hfuel.
  destruct (products self) as [|p rest] eqn:Hprod.
  - destruct fuel as [|f]; [simpl in Hfuel; lia|].
    simpl. unfold ProductManager.number_of_products. rewrite Hprod. reflexivity.
  - split; [|split; [apply length_map | split; [reflexivity | exact Hprod]]].
    destruct fuel as [|f]; [simpl in Hfuel; lia|].
    simpl ProductManager.consume. unfold ProductManager.iterate_products.
    simpl ProductManager.next.
    unfold ProductManager.number_of_products. rewrite Hprod.
    simpl length.
    replace (Z.of_nat (S (length rest)) =? 0)%Z with false
      by (symmetry; apply Z.eqb_neq; lia).
    unfold ProductManager.loop, ProductManager.number_of_products.
    simpl products. rewrite Hprod.
    change (py_index (p :: rest) 0)
      with (py_index ([] ++ p :: rest)%list (Z.of_nat (length (@nil nat)))).
    rewrite py_index_middle.
    replace (0 <? Z.of_nat (length (p :: rest)))%Z with true
      by (symmetry; apply Z.ltb_lt; simpl length; lia).
    pose proof (consume_suspended rest [] p
                  (ProductManager.with_iterating true self) f) as Hc.
    change (Z.of_nat (length (@nil nat))) with 0%Z in Hc.
    rewrite Hc.
    + reflexivity.
    + simpl. exact Hprod.
    + reflexivity.
    + simpl in Hfuel. lia.
Qed.

Lemma C8_iterate_products_witness :
  ProductManager.consume 4 ProductManager.iterate_products
    (ProductManager.with_products [5%nat; 3%nat; 8%nat] ProductManager.__init__)
  = Some ([(5%nat, true); (3%nat, true); (8%nat, true)], None,
          ProductManager.with_products [5%nat; 3%nat; 8%nat]
            ProductManager.__init__)
  ∧ ProductManager.consume 1 ProductManager.iterate_products
      ProductManager.__init__
    = Some ([], Some (ValueError
               "No products available in this product manager."),
            ProductManager.__init__).
Proof.
  split.
  - refine (proj1 (C8_iterate_products
                     (ProductManager.with_products [5%nat; 3%nat; 8%nat]
                        ProductManager.__init__) 4 _)).
    simpl. lia.
  - refine (C8_iterate_products ProductManager.__init__ 1 _). simpl. lia.
Defined.

(** ** Running the pipeline *)

(** Without an attribute [config] on the processor, [run] on a non-empty
    stage list and a non-empty manager raises [AttributeError] when it
    resolves the configuration of the first stage: no stage has been
    called, [running] is still set and the pointer is 1. *)
Lemma run_without_config (run_method : nat → nat → pyval → pyval → World → outcome)
  (w : World) (fuel : nat) (first : string * nat) (rest : list (string * nat))
  (p : nat) (ps : list nat) :
  _stages (processor w) = first :: rest →
  products (prod_manager (processor w)) = p :: ps →
  dict_lookup (bound (processor w)) "config" = None →
  (2 ≤ fuel)%nat →
  Processor.run run_method fuel w
  = Some (Raised AttributeError
            (with_processor
               (Processor.with_pointer (Some 1)
                  (Processor.with_running true (processor w))) w)).
Proof.
  intros Hstages Hprods Hconfig Hfuel.
  destruct fuel as [|[|f]]; try lia.
  unfold Processor.run, Processor.number_of_stages,
    ProductManager.number_of_products.
  rewrite Hstages, Hprods. simpl length.
  replace (Z.of_nat (S (length rest)) =? 0)%Z with false
    by (symmetry; apply Z.eqb_neq; lia).
  replace (Z.of_nat (S (length ps)) =? 0)%Z with false
    by (symmetry; apply Z.eqb_neq; lia).
  simpl Processor.run_products. rewrite Hprods. simpl lookup.
  unfold Processor.number_of_stages. simpl _stages. rewrite Hstages.
  replace (0 <? Z.of_nat (length (first :: rest)))%Z with true
    by (symmetry; apply Z.ltb_lt; simpl length; lia).
  change (py_index (first :: rest) 0)
    with (py_index ([] ++ first :: rest)%list (Z.of_nat (length (@nil (string * nat))))).
  rewrite py_index_middle. destruct first as [stage_name stage].
  unfold Processor.config. simpl bound. rewrite Hconfig. reflexivity.
Qed.

(** C1: the claim is the call order [A, B, A, B, C] and a clean state after
    [run].  On the code, for the processor as [Processor()] builds it, given
    the stage list [[A; B; C]] and one product, [run] raises
    [AttributeError] at [self.config] before any stage is called: the log of
    calls is empty, [running] is left set and the pointer is left at 1. *)
Theorem C1_run_raises_AttributeError :
  ∀ (fuel : nat),
    (2 ≤ fuel)%nat →
    ∃ w', Processor.run abc_run fuel abc_world = Some (Raised AttributeError w')
          ∧ calls w' = []
          ∧ running (processor w') = true
          ∧ _processing_stage (processor w') = Some 1.
Proof.
  intros fuel Hfuel. eexists. split.
  - apply (run_without_config abc_run abc_world fuel ("A", 1%nat)
             [("B", 2%nat); ("C", 3%nat)] 7%nat []); try reflexivity.
    exact Hfuel.
  - repeat split.
Qed.

Lemma C1_run_raises_AttributeError_witness :
  (2 ≤ 50)%nat
  ∧ ∃ w', Processor.run abc_run 50 abc_world = Some (Raised AttributeError w')
          ∧ calls w' = []
          ∧ running (processor w') = true
          ∧ _processing_stage (processor w') = Some 1.
Proof.
  split.
  - lia.
  - apply (C1_run_raises_AttributeError 50). lia.
Defined.

(** Once other code has bound [config] on the processor to a dictionary,
    the loop of [run] does what C1 describes: the calls are [A, B, A, B, C],
    each with the configuration found under its name or [None], and [run]
    ends with [running] cleared and the pointer [None]. *)
Example run_with_config_bound :
  ∃ w', Processor.run abc_run 20 abc_world_configured = Some (Done w')
        ∧ calls w' = [(1%nat, VDict [("gain", VInt 2)]); (2%nat, VNone);
                      (1%nat, VDict [("gain", VInt 2)]); (2%nat, VNone);
                      (3%nat, VDict [("bias", VInt 5)])]
        ∧ running (processor w') = false
        ∧ _processing_stage (processor w') = None.
Proof. eexists. split; [vm_compute; reflexivity | repeat split]. Qed.

(** ** Calling a stage that has children *)

(** C2: the claim is that the stage runs, then [X] with its sub-config, then
    [Y] with its sub-config.  On the code, for stage 10 with the children
    [X] (11) and [Y] (12) and the configuration [{X: cfgX, Y: cfgY}]: the
    stage runs, [X] runs with [cfgX], then [X] dispatches the children of
    the class list, itself first, with [cfgX.get("X")], which is [None];
    that inner [X] runs and raises [AttributeError] at [None.get].  [Y] is
    never called. *)
Theorem C2_call_with_children_raises :
  ∀ (fuel : nat),
    (6 ≤ fuel)%nat →
    ∃ w', Stage.__call__ passive_run fuel 10 7 xy_config VNone xy_world
          = Some (Raised AttributeError w')
          ∧ calls w' = [(10%nat, xy_config); (11%nat, cfgX); (11%nat, VNone)]
          ∧ (∀ c, (12%nat, c) ∉ calls w').
Proof.
  intros fuel Hfuel.
  do 6 (destruct fuel as [|fuel]; [lia|]).
  eexists. split; [reflexivity|]. split; [reflexivity|].
  intros c Hin. simpl in Hin.
  repeat (apply elem_of_cons in Hin as [Heq|Hin]; [discriminate Heq|]).
  apply elem_of_nil in Hin. exact Hin.
Qed.

Lemma C2_call_with_children_raises_witness :
  (6 ≤ 40)%nat
  ∧ ∃ w', Stage.__call__ passive_run 40 10 7 xy_config VNone xy_world
          = Some (Raised AttributeError w')
          ∧ calls w' = [(10%nat, xy_config); (11%nat, cfgX); (11%nat, VNone)]
          ∧ (∀ c, (12%nat, c) ∉ calls w').
Proof.
  split.
  - lia.
  - apply (C2_call_with_children_raises 40). lia.
Defined.

(** A stage that never called [add_children] dispatches the child another
    stage added: 22 calls 21, the child of 20. *)
Example child_dispatched_by_other_stage :
  ∃ w0 w', Stage.add_children 20 "C" 21 fresh_world = Done w0
           ∧ Stage.__call__ passive_run 6 22 7
               (VDict [("C", VDict [("gain", VInt 2)])]) VNone w0
             = Some (Raised AttributeError w')
           ∧ calls w' = [(22%nat, VDict [("C", VDict [("gain", VInt 2)])]);
                         (21%nat, VDict [("gain", VInt 2)]); (21%nat, VNone)].
Proof. do 2 eexists. repeat split. Qed.

Lemma nesting_lookup (d : dict) (k : string) (v : pyval) :
  dict_lookup d k = Some v → (nesting v < nesting (VDict d))%nat.
Proof.
  induction d as [|[k' x] d IH]; simpl; intros Hlook; [discriminate Hlook|].
  destruct (String.eqb k k').
  - injection Hlook as ->. lia.
  - specialize (IH Hlook). simpl in IH. lia.
Qed.

Lemma nesting_get (config : pyval) (k : option string) (conf : pyval) :
  py_get config k = Ok conf →
  (nesting conf < nesting config)%nat.
Proof.
  destruct config as [| | | | |d]; simpl; try discriminate.
  destruct k as [s|].
  - destruct (dict_lookup d s) as [v|] eqn:Hlook; simpl; intros [= <-].
    + apply (nesting_lookup d s v Hlook).
    + simpl. lia.
  - intros [= <-]. simpl. lia.
Qed.

Section SharedChildren.

Variable run_method : nat → nat → pyval → pyval → World → outcome.

(** The overrides of [run] return normally and leave the children list as
    it is. *)
Hypothesis run_returns :
  ∀ self product config instrument w,
    ∃ w', run_method self product config instrument w = Done w'
          ∧ Stage_children w' = Stage_children w.

(** While the class list holds a child, calling any stage ends in
    [AttributeError]: each level dispatches the first child of the list
    with a less nested configuration, down to a value that has no [get].
    (On the interpreter this is so for a configuration whose nesting fits
    under the recursion limit; beyond it the call ends in
    [RecursionError].) *)
Lemma call_with_children_raises (n : nat) :
  ∀ (config : pyval) (self product : nat) (instrument : pyval) (w : World)
    (fuel : nat),
    (nesting config ≤ n)%nat →
    Stage_children w ≠ [] →
    (2 * n + 2 ≤ fuel)%nat →
    ∃ w', Stage.__call__ run_method fuel self product config instrument w
          = Some (Raised AttributeError w').
Proof.
  induction n as [|n IH];
    intros config self product instrument w fuel Hdepth Hchildren Hfuel;
    (destruct fuel as [|[|f]]; [lia | lia |]);
    simpl Stage.__call__;
    destruct (run_returns self product config instrument
                (Stage.log_call self config w)) as (w1 & -> & Hkeep);
    unfold Stage._children; simpl in Hkeep;
    (destruct (Stage_children w1) as [|c0 cs] eqn:Hlist;
       [exfalso; apply Hchildren; symmetry; exact Hkeep|]);
    simpl lookup; cbv iota beta;
    destruct (py_get config (stage_name (Stage.obj w1 c0))) as [conf|e] eqn:Hget.
  - apply nesting_get in Hget. lia.
  - destruct config as [| | | | |d]; simpl in Hget;
      try (injection Hget as <-; eexists; reflexivity).
    destruct (stage_name (Stage.obj w1 c0)); discriminate Hget.
  - apply nesting_get in Hget.
    destruct (IH conf c0 product instrument w1 f) as (w' & ->).
    + lia.
    + rewrite Hlist. discriminate.
    + lia.
    + eexists. reflexivity.
  - destruct config as [| | | | |d]; simpl in Hget;
      try (injection Hget as <-; eexists; reflexivity).
    destruct (stage_name (Stage.obj w1 c0)); discriminate Hget.
Qed.

End SharedChildren.

(** The passive stages of the examples meet the two conditions, so with them
    a call of a stage raises as soon as the class list is not empty (with
    the same proviso on the nesting of the configuration). *)
Corollary passive_call_with_children_raises (config : pyval)
  (self product : nat) (instrument : pyval) (w : World) :
  Stage_children w ≠ [] →
  ∃ fuel w', Stage.__call__ passive_run fuel self product config instrument w
             = Some (Raised AttributeError w').
Proof.
  intros Hchildren. exists (2 * nesting config + 2)%nat.
  apply (call_with_children_raises passive_run) with (n := nesting config).
  - intros s p c i w0. exists w0. split; reflexivity.
  - lia.
  - exact Hchildren.
  - lia.
Qed.

(** ** More on the product manager *)

Lemma py_insert_perm {A} (l : list A) (i : Z) (x : A) :
  py_insert l i x ≡ₚ x :: l.
Proof.
  unfold py_insert.
  set (j := Z.to_nat _).
  rewrite <- (take_drop j l) at 3.
  symmetry. apply Permutation_middle.
Qed.

Lemma py_insert_at {A} (l : list A) (i : nat) (x : A) :
  (i ≤ length l)%nat →
  py_index (py_insert l (Z.of_nat i) x) (Z.of_nat i) = Some x.
Proof.
  intros Hi. unfold py_insert.
  replace (Z.of_nat i <? 0)%Z with false by (symmetry; apply Z.ltb_ge; lia).
  rewrite Z.min_l by lia. rewrite Nat2Z.id.
  assert (Hlen : length (take i l) = i) by (rewrite length_take; lia).
  rewrite <- Hlen at 3. apply py_index_middle.
Qed.

(** X1: adding a product that is not a member, outside an iteration,
    succeeds with no index and with every index that a C [ssize_t] holds:
    the members are the old ones and the new one, the count grows by one,
    the guard stays clear, and a list without duplicates stays so; with no
    index the product goes last. *)
Theorem add_product_fresh :
  ∀ (self : ManagerObj) (product : nat) (index : option Z),
    ssize_t_index index →
    product ∉ products self →
    iterating self = false →
    ∃ self', ProductManager.add_product product index self = Ok self'
             ∧ products self' ≡ₚ product :: products self
             ∧ ProductManager.number_of_products self'
               = (ProductManager.number_of_products self + 1)%Z
             ∧ iterating self' = false
             ∧ (NoDup (products self) → NoDup (products self'))
             ∧ (index = None → products self' = (products self ++ [product])%list).
Proof.
  intros self product index _ Hfresh Hidle.
  unfold ProductManager.add_product.
  rewrite bool_decide_eq_false_2 by exact Hfresh. rewrite Hidle.
  assert (Hmain : ∀ l, l ≡ₚ product :: products self →
            ∃ self', Ok (ProductManager.with_products l self) = Ok self'
             ∧ products self' ≡ₚ product :: products self
             ∧ ProductManager.number_of_products self'
               = (ProductManager.number_of_products self + 1)%Z
             ∧ iterating self' = false
             ∧ (NoDup (products self) → NoDup (products self'))).
  { intros l Hperm. eexists. split; [reflexivity|]. simpl.
    split; [exact Hperm|]. split; [|split; [exact Hidle|]].
    - unfold ProductManager.number_of_products. simpl.
      rewrite (Permutation_length Hperm). simpl length. lia.
    - intros Hnodup. rewrite Hperm. apply NoDup_cons. split; assumption. }
  destruct index as [i|].
  - destruct (Hmain (py_insert (products self) i product)) as (self' & H1 & H2 & H3 & H4 & H5).
    { apply py_insert_perm. }
    exists self'. repeat split; try assumption. discriminate.
  - destruct (Hmain (products self ++ [product])%list) as (self' & H1 & H2 & H3 & H4 & H5).
    { rewrite Permutation_app_comm. reflexivity. }
    exists self'. repeat split; try assumption.
    intros _. injection H1 as <-. reflexivity.
Qed.

Lemma add_product_fresh_witness :
  ∃ self', ProductManager.add_product 9 (Some 1)
             (ProductManager.with_products [5%nat; 3%nat] ProductManager.__init__)
           = Ok self'
           ∧ products self' ≡ₚ [9%nat; 5%nat; 3%nat].
Proof.
  destruct (add_product_fresh
              (ProductManager.with_products [5%nat; 3%nat] ProductManager.__init__)
              9 (Some 1)) as (self' & H1 & H2 & _).
  - unfold ssize_t_index. lia.
  - simpl. intros Hin.
    repeat (apply elem_of_cons in Hin as [Heq|Hin]; [discriminate Heq|]).
    apply elem_of_nil in Hin. exact Hin.
  - reflexivity.
  - exists self'. split; [exact H1 | exact H2].
Defined.

(** X2: [add_product(p, index=i)] with [0 <= i <= count] puts the product
    at position [i]: [product(i)] then returns it. *)
Theorem add_product_then_product :
  ∀ (self : ManagerObj) (product : nat) (i : nat),
    product ∉ products self →
    iterating self = false →
    (i ≤ length (products self))%nat →
    ∃ self', ProductManager.add_product product (Some (Z.of_nat i)) self = Ok self'
             ∧ ProductManager.product (Z.of_nat i) self' = Ok product.
Proof.
  intros self product i Hfresh Hidle Hi.
  unfold ProductManager.add_product.
  rewrite bool_decide_eq_false_2 by exact Hfresh. rewrite Hidle.
  eexists. split; [reflexivity|].
  unfold ProductManager.product. simpl products.
  rewrite py_insert_at by exact Hi. reflexivity.
Qed.

Lemma add_product_then_product_witness :
  ∃ self', ProductManager.add_product 9 (Some (Z.of_nat 2))
             (ProductManager.with_products [5%nat; 3%nat] ProductManager.__init__)
           = Ok self'
           ∧ ProductManager.product (Z.of_nat 2) self' = Ok 9%nat.
Proof.
  apply (add_product_then_product
           (ProductManager.with_products [5%nat; 3%nat] ProductManager.__init__)
           9 2).
  - simpl. intros Hin.
    repeat (apply elem_of_cons in Hin as [Heq|Hin]; [discriminate Heq|]).
    apply elem_of_nil in Hin. exact Hin.
  - reflexivity.
  - simpl. lia.
Defined.

Lemma list_remove_middle (x : nat) (pre tl : list nat) :
  x ∉ pre →
  ProductManager.list_remove x (pre ++ x :: tl)%list = Some (pre ++ tl)%list.
Proof.
  induction pre as [|y pre IH]; intros Hout; simpl.
  - rewrite Nat.eqb_refl. reflexivity.
  - apply not_elem_of_cons in Hout as [Hne Hout].
    destruct (Nat.eqb_spec x y) as [Heq|_]; [contradiction|].
    rewrite (IH Hout). reflexivity.
Qed.

Lemma list_remove_absent (x : nat) (l : list nat) :
  x ∉ l → ProductManager.list_remove x l = None.
Proof.
  induction l as [|y l IH]; intros Hout; simpl; [reflexivity|].
  apply not_elem_of_cons in Hout as [Hne Hout].
  destruct (Nat.eqb_spec x y) as [Heq|_]; [contradiction|].
  rewrite (IH Hout). reflexivity.
Qed.

Lemma list_remove_member (x : nat) (l : list nat) :
  x ∈ l →
  ∃ pre tl, l = (pre ++ x :: tl)%list ∧ (x ∉ pre)
            ∧ ProductManager.list_remove x l = Some (pre ++ tl)%list.
Proof.
  induction l as [|y l IH]; intros Hin.
  - apply elem_of_nil in Hin. contradiction.
  - destruct (Nat.eq_dec x y) as [->|Hne].
    + exists [], l. split; [reflexivity|]. split; [apply not_elem_of_nil|].
      simpl. rewrite Nat.eqb_refl. reflexivity.
    + apply elem_of_cons in Hin as [Heq|Hin]; [contradiction|].
      destruct (IH Hin) as (pre & tl & -> & Hout & Hrem).
      exists (y :: pre), tl. split; [reflexivity|]. split.
      * apply not_elem_of_cons. split; assumption.
      * apply (list_remove_middle x (y :: pre) tl).
        apply not_elem_of_cons. split; assumption.
Qed.

(** X3: [del_product] of a member removes its first occurrence and keeps
    the order of the others, whether an iteration is open or not: the
    products [pre ++ product :: tl], with [product] not in [pre], become
    [pre ++ tl]; the count drops by one, the guard is not touched, and in a
    list without duplicates the product is gone.  [del_product] of a
    non-member raises the [ValueError] of [list.remove]. *)
Theorem del_product_member_or_not :
  ∀ (self : ManagerObj) (product : nat),
    (product ∈ products self →
       ∃ self' pre tl,
         ProductManager.del_product product self = Ok self'
         ∧ products self = (pre ++ product :: tl)%list
         ∧ (product ∉ pre)
         ∧ products self' = (pre ++ tl)%list
         ∧ ProductManager.number_of_products self'
           = (ProductManager.number_of_products self - 1)%Z
         ∧ iterating self' = iterating self
         ∧ (NoDup (products self) → product ∉ products self'))
    ∧ (product ∉ products self →
       ProductManager.del_product product self
       = Raise (ValueError "list.remove(x): x not in list")).
Proof.
  intros self product. unfold ProductManager.del_product. split.
  - intros Hin.
    destruct (list_remove_member product (products self) Hin)
      as (pre & tl & Hsplit & Hout & ->).
    eexists. exists pre, tl. split; [reflexivity|]. simpl.
    split; [exact Hsplit|]. split; [exact Hout|]. split; [reflexivity|].
    assert (Hperm : products self ≡ₚ product :: (pre ++ tl)%list)
      by (rewrite Hsplit; symmetry; apply Permutation_middle).
    split; [|split; [reflexivity|]].
    + unfold ProductManager.number_of_products. simpl.
      rewrite (Permutation_length Hperm). simpl length. lia.
    + intros Hnodup. rewrite Hperm in Hnodup.
      apply NoDup_cons in Hnodup as [Hfresh _]. exact Hfresh.
  - intros Hout. rewrite (list_remove_absent _ _ Hout). reflexivity.
Qed.

Lemma del_product_member_or_not_witness :
  ∃ self', ProductManager.del_product 3
             (ProductManager.with_products [5%nat; 3%nat; 8%nat; 3%nat]
                (ProductManager.with_iterating true ProductManager.__init__))
           = Ok self'
           ∧ products self' = [5%nat; 8%nat; 3%nat]
           ∧ iterating self' = true.
Proof.
  destruct (proj1 (del_product_member_or_not
              (ProductManager.with_products [5%nat; 3%nat; 8%nat; 3%nat]
                 (ProductManager.with_iterating true ProductManager.__init__)) 3))
    as (self' & pre & tl & H1 & _ & _ & _ & _ & H6 & _).
  - simpl. apply list_elem_of_further, list_elem_of_here.
  - exists self'. split; [exact H1|].
    vm_compute in H1. injection H1 as <-. split; reflexivity.
Defined.

(** X4: adding a product that is not a member, with no index or at any
    index that a C [ssize_t] holds, and deleting it again gives back the
    manager as it was. *)
Theorem add_then_del_product :
  ∀ (self : ManagerObj) (product : nat) (index : option Z),
    ssize_t_index index →
    product ∉ products self →
    iterating self = false →
    ∃ self', ProductManager.add_product product index self = Ok self'
             ∧ ProductManager.del_product product self' = Ok self.
Proof.
  intros self product index _ Hfresh Hidle.
  unfold ProductManager.add_product.
  rewrite bool_decide_eq_false_2 by exact Hfresh. rewrite Hidle.
  destruct self as [l b]. simpl in *.
  destruct index as [i|]; eexists; (split; [reflexivity|]);
    unfold ProductManager.del_product, ProductManager.with_products; simpl.
  - unfold py_insert. set (j := Z.to_nat _).
    rewrite list_remove_middle.
    + rewrite take_drop. reflexivity.
    + intros Hin. apply Hfresh. apply (subseteq_take j l product Hin).
  - rewrite (list_remove_middle product l []) by exact Hfresh.
    rewrite app_nil_r. reflexivity.
Qed.

Lemma add_then_del_product_witness :
  ∃ self', ProductManager.add_product 9 (Some (-1))
             (ProductManager.with_products [5%nat; 3%nat] ProductManager.__init__)
           = Ok self'
           ∧ ProductManager.del_product 9 self'
             = Ok (ProductManager.with_products [5%nat; 3%nat]
                     ProductManager.__init__).
Proof.
  apply (add_then_del_product
           (ProductManager.with_products [5%nat; 3%nat] ProductManager.__init__)
           9 (Some (-1))).
  - unfold ssize_t_index. lia.
  - simpl. intros Hin.
    repeat (apply elem_of_cons in Hin as [Heq|Hin]; [discriminate Heq|]).
    apply elem_of_nil in Hin. exact Hin.
  - reflexivity.
Defined.

(** Resuming a suspended generator, whatever the guard: the items after the
    current one come out in order, each seen with the guard as it is. *)
Lemma consume_suspended_guard (rest pre : list nat) (p : nat)
  (self : ManagerObj) (fuel : nat) :
  products self = (pre ++ p :: rest)%list →
  (length rest < fuel)%nat →
  ProductManager.consume fuel
    (ProductManager.Suspended (Z.of_nat (length pre))) self
  = Some (map (λ q, (q, iterating self)) rest, None,
          ProductManager.with_iterating false self).
Proof.
  revert pre p fuel.
  induction rest as [|q rest IH]; intros pre p fuel Hprod Hfuel;
    destruct fuel as [|f]; try (simpl in Hfuel; lia).
  - simpl. unfold ProductManager.loop, ProductManager.number_of_products.
    rewrite Hprod, length_app. simpl length.
    replace (Z.of_nat (length pre) + 1 <? Z.of_nat (length pre + 1))%Z
      with false by (symmetry; apply Z.ltb_ge; lia).
    reflexivity.
  - simpl ProductManager.consume.
    unfold ProductManager.loop, ProductManager.number_of_products.
    assert (Hprod' : products self = ((pre ++ [p]) ++ q :: rest)%list)
      by (rewrite Hprod, <- app_assoc; reflexivity).
    assert (Hpos : (Z.of_nat (length pre) + 1)%Z
                   = Z.of_nat (length (pre ++ [p])%list))
      by (rewrite length_app; simpl length; lia).
    rewrite Hpos.
    rewrite Hprod' at 2. rewrite py_index_middle.
    replace (Z.of_nat (length (pre ++ [p])%list)
             <? Z.of_nat (length (products self)))%Z
      with true
      by (symmetry; apply Z.ltb_lt; rewrite Hprod', !length_app;
          simpl length; lia).
    rewrite (IH (pre ++ [p])%list q f Hprod') by (simpl in Hfuel; lia).
    reflexivity.
Qed.

(** The first [next] of a generator over a non-empty manager sets the guard
    and yields the first product. *)
Lemma next_created (self : ManagerObj) (p : nat) (rest : list nat) :
  products self = p :: rest →
  ProductManager.next ProductManager.Created self
  = (ProductManager.Yield p, ProductManager.Suspended 0,
     ProductManager.with_iterating true self).
Proof.
  intros Hprod. simpl.
  unfold ProductManager.loop, ProductManager.number_of_products.
  simpl products. rewrite Hprod. simpl length.
  replace (Z.of_nat (S (length rest)) =? 0)%Z with false
    by (symmetry; apply Z.eqb_neq; lia).
  replace (0 <? Z.of_nat (S (length rest)))%Z with true
    by (symmetry; apply Z.ltb_lt; lia).
  reflexivity.
Qed.

(** X5: deleting, inside the loop body, the product the generator is
    suspended on makes the iteration skip the product that follows it: with
    the products [pre ++ p :: q :: rest] and the generator suspended on [p],
    after [del_product(p)] the generator yields [rest] and never [q]. *)
Theorem del_product_while_iterating_skips_next :
  ∀ (self : ManagerObj) (pre : list nat) (p q : nat) (rest : list nat)
    (fuel : nat),
    products self = (pre ++ p :: q :: rest)%list →
    p ∉ pre →
    iterating self = true →
    (length rest < fuel)%nat →
    ∃ self', ProductManager.del_product p self = Ok self'
             ∧ products self' = (pre ++ q :: rest)%list
             ∧ ProductManager.consume fuel
                 (ProductManager.Suspended (Z.of_nat (length pre))) self'
               = Some (map (λ x, (x, true)) rest, None,
                       ProductManager.with_iterating false self').
Proof.
  intros self pre p q rest fuel Hprod Hout Hguard Hfuel.
  unfold ProductManager.del_product.
  rewrite Hprod, (list_remove_middle p pre (q :: rest) Hout).
  eexists. split; [reflexivity|]. split; [reflexivity|].
  rewrite (consume_suspended_guard rest pre q _ fuel); [|reflexivity|exact Hfuel].
  simpl iterating. rewrite Hguard. reflexivity.
Qed.

Lemma del_product_while_iterating_skips_next_witness :
  ∃ self', ProductManager.del_product 5
             (ProductManager.with_products [5%nat; 3%nat; 8%nat]
                (ProductManager.with_iterating true ProductManager.__init__))
           = Ok self'
           ∧ products self' = [3%nat; 8%nat]
           ∧ ProductManager.consume 2 (ProductManager.Suspended 0) self'
             = Some ([(8%nat, true)], None,
                     ProductManager.with_iterating false self').
Proof.
  apply (del_product_while_iterating_skips_next
           (ProductManager.with_products [5%nat; 3%nat; 8%nat]
              (ProductManager.with_iterating true ProductManager.__init__))
           [] 5 3 [8%nat] 2).
  - reflexivity.
  - apply not_elem_of_nil.
  - reflexivity.
  - simpl. lia.
Defined.



(** X7: the guard is one flag for all iterations.  While a first generator
    is suspended on the first product, a second one run to its end clears
    the flag; [add_product] is then accepted although the first generator
    is still open, and that generator, resumed, also yields the product
    added behind its back. *)
Theorem second_iteration_clears_the_guard :
  ∀ (self : ManagerObj) (p : nat) (rest : list nat) (q : nat) (fuel : nat),
    products self = p :: rest →
    q ∉ products self →
    (length rest + 1 < fuel)%nat →
    ∃ s1 s2 s3,
      ProductManager.next ProductManager.iterate_products self
      = (ProductManager.Yield p, ProductManager.Suspended 0, s1)
      ∧ ProductManager.consume fuel ProductManager.iterate_products s1
        = Some (map (λ x, (x, true)) (p :: rest), None, s2)
      ∧ iterating s2 = false
      ∧ ProductManager.add_product q None s2 = Ok s3
      ∧ ProductManager.consume (S fuel) (ProductManager.Suspended 0) s3
        = Some (map (λ x, (x, false)) (rest ++ [q])%list, None, s3).
Proof.
  intros self p rest q fuel Hprod Hfresh Hfuel.
  exists (ProductManager.with_iterating true self).
  exists (ProductManager.with_iterating false
            (ProductManager.with_iterating true self)).
  eexists. split; [apply (next_created self p rest Hprod)|]. split.
  - destruct fuel as [|f]; [lia|].
    unfold ProductManager.iterate_products. cbn [ProductManager.consume].
    rewrite (next_created _ p rest) by exact Hprod.
    rewrite (consume_suspended_guard rest [] p _ f);
      [reflexivity | exact Hprod | lia].
  - split; [reflexivity|]. split.
    + unfold ProductManager.add_product. simpl products.
      rewrite bool_decide_eq_false_2 by exact Hfresh. reflexivity.
    + rewrite (consume_suspended_guard (rest ++ [q])%list [] p _ (S fuel)).
      * reflexivity.
      * simpl. rewrite Hprod. reflexivity.
      * rewrite length_app. simpl. lia.
Qed.

Lemma second_iteration_clears_the_guard_witness :
  ∃ s1 s2 s3,
    ProductManager.next ProductManager.iterate_products
      (ProductManager.with_products [5%nat; 3%nat] ProductManager.__init__)
    = (ProductManager.Yield 5, ProductManager.Suspended 0, s1)
    ∧ ProductManager.consume 3 ProductManager.iterate_products s1
      = Some (map (λ x, (x, true)) [5%nat; 3%nat], None, s2)
    ∧ iterating s2 = false
    ∧ ProductManager.add_product 9 None s2 = Ok s3
    ∧ ProductManager.consume 4 (ProductManager.Suspended 0) s3
      = Some (map (λ x, (x, false)) ([3%nat] ++ [9%nat])%list, None, s3).
Proof.
  apply (second_iteration_clears_the_guard
           (ProductManager.with_products [5%nat; 3%nat] ProductManager.__init__)
           5 [3%nat] 9 3).
  - reflexivity.
  - simpl. intros Hin.
    repeat (apply elem_of_cons in Hin as [Heq|Hin]; [discriminate Heq|]).
    apply elem_of_nil in Hin. exact Hin.
  - simpl. lia.
Defined.

(** ** More on the children of a stage *)

Lemma obj_set_obj_ne (a b : nat) (o : StageObj) (w : World) :
  a ≠ b → Stage.obj (Stage.set_obj a o w) b = Stage.obj w b.
Proof.
  intros Hne. unfold Stage.obj, Stage.set_obj. simpl.
  rewrite lookup_insert_ne by exact Hne. reflexivity.
Qed.

(** X8: [remove_children] by any stage undoes the list part of
    [add_children] by any other: the children list is as before and the
    child's parent is [None] again; the name given to the child stays. *)
Theorem add_then_remove_children :
  ∀ (w : World) (s1 s2 : nat) (name : string) (c : nat),
    c ∉ Stage._children w s1 →
    ∃ w1 w2, Stage.add_children s1 name c w = Done w1
             ∧ Stage.remove_children s2 c w1 = Done w2
             ∧ Stage._children w2 s1 = Stage._children w s1
             ∧ stage_parent (Stage.obj w2 c) = None
             ∧ stage_name (Stage.obj w2 c) = Some name.
Proof.
  intros w s1 s2 name c Hout. unfold Stage.add_children.
  rewrite bool_decide_eq_true_2 by exact Hout.
  eexists. eexists. split; [reflexivity|].
  unfold Stage.remove_children, Stage._children in *. simpl Stage_children.
  rewrite (list_remove_middle c (Stage_children w) []) by exact Hout.
  rewrite app_nil_r. split; [reflexivity|]. split; [reflexivity|].
  unfold Stage.set_parent, Stage.set_name.
  rewrite !set_obj_lookup. simpl. split; [reflexivity|].
  unfold Stage.obj. simpl. rewrite !lookup_insert_eq. reflexivity.
Qed.

Lemma add_then_remove_children_witness :
  ∃ w1 w2, Stage.add_children 20 "C" 21 fresh_world = Done w1
           ∧ Stage.remove_children 22 21 w1 = Done w2
           ∧ Stage._children w2 20 = Stage._children fresh_world 20
           ∧ stage_parent (Stage.obj w2 21) = None
           ∧ stage_name (Stage.obj w2 21) = Some "C".
Proof.
  apply (add_then_remove_children fresh_world 20 22 "C" 21).
  apply not_elem_of_nil.
Defined.

(** X9: a stage that is a child cannot be given to another parent: after
    [s1.add_children(n1, c)], the call [s2.add_children(n2, c)] returns
    normally and changes nothing; [c] keeps the parent [s1] and the name
    [n1]. *)
Theorem add_children_to_second_parent_ignored :
  ∀ (w : World) (s1 s2 : nat) (n1 n2 : string) (c : nat),
    c ∉ Stage._children w s1 →
    ∃ w1, Stage.add_children s1 n1 c w = Done w1
          ∧ Stage.add_children s2 n2 c w1 = Done w1
          ∧ stage_parent (Stage.obj w1 c) = Some s1
          ∧ stage_name (Stage.obj w1 c) = Some n1.
Proof.
  intros w s1 s2 n1 n2 c Hout. unfold Stage.add_children at 1.
  rewrite bool_decide_eq_true_2 by exact Hout.
  eexists. split; [reflexivity|]. split.
  - unfold Stage.add_children. rewrite bool_decide_eq_false_2; [reflexivity|].
    intros Hnot. apply Hnot. unfold Stage._children. simpl.
    apply elem_of_app. right. apply list_elem_of_here.
  - unfold Stage.set_name, Stage.set_parent.
    rewrite !set_obj_lookup. simpl. split; reflexivity.
Qed.

Lemma add_children_to_second_parent_ignored_witness :
  ∃ w1, Stage.add_children 20 "C" 21 fresh_world = Done w1
        ∧ Stage.add_children 22 "D" 21 w1 = Done w1
        ∧ stage_parent (Stage.obj w1 21) = Some 20%nat
        ∧ stage_name (Stage.obj w1 21) = Some "C".
Proof.
  apply (add_children_to_second_parent_ignored fresh_world 20 22 "C" "D" 21).
  apply not_elem_of_nil.
Defined.

(** X10: [remove_children] of a stage in the list removes its first
    occurrence and keeps the order of the others (the list
    [pre ++ stage :: tl], with [stage] not in [pre], becomes [pre ++ tl]),
    and clears the parent of the stage, leaving its name and the parent and
    the name of every other stage alone; of a stage that is not in the list
    it raises the [ValueError] of [list.remove] and changes nothing, the
    parent of that stage included. *)
Theorem remove_children_member_or_not :
  ∀ (w : World) (self stage : nat),
    (stage ∈ Stage._children w self →
       ∃ w' pre tl,
         Stage.remove_children self stage w = Done w'
         ∧ Stage._children w self = (pre ++ stage :: tl)%list
         ∧ (stage ∉ pre)
         ∧ Stage._children w' self = (pre ++ tl)%list
         ∧ stage_parent (Stage.obj w' stage) = None
         ∧ stage_name (Stage.obj w' stage) = stage_name (Stage.obj w stage)
         ∧ (∀ other, other ≠ stage → Stage.obj w' other = Stage.obj w other))
    ∧ (stage ∉ Stage._children w self →
       Stage.remove_children self stage w
       = Raised (ValueError "list.remove(x): x not in list") w).
Proof.
  intros w self stage. unfold Stage.remove_children, Stage._children. split.
  - intros Hin.
    destruct (list_remove_member stage (Stage_children w) Hin)
      as (pre & tl & Hsplit & Hout & ->).
    eexists. exists pre, tl. split; [reflexivity|]. simpl Stage_children.
    split; [exact Hsplit|]. split; [exact Hout|]. split; [reflexivity|].
    unfold Stage.set_parent. rewrite set_obj_lookup. simpl.
    split; [reflexivity|]. split; [reflexivity|].
    intros other Hne. rewrite obj_set_obj_ne by (intros Heq; apply Hne; symmetry; exact Heq).
    reflexivity.
  - intros Hout. rewrite (list_remove_absent _ _ Hout). reflexivity.
Qed.

Lemma remove_children_member_or_not_witness :
  (∃ w', Stage.remove_children 12 11 xy_world = Done w'
         ∧ Stage._children w' 12 = [12%nat]
         ∧ stage_parent (Stage.obj w' 11) = None)
  ∧ Stage.remove_children 10 13 xy_world
    = Raised (ValueError "list.remove(x): x not in list") xy_world.
Proof.
  split.
  - destruct (proj1 (remove_children_member_or_not xy_world 12 11))
      as (w' & pre & tl & H1 & _ & _ & _ & H5 & _).
    + change (11%nat ∈ [11%nat; 12%nat]). apply list_elem_of_here.
    + exists w'. split; [exact H1|]. split; [|exact H5].
      vm_compute in H1. injection H1 as <-. reflexivity.
  - apply (proj2 (remove_children_member_or_not xy_world 10 13)).
    change (13%nat ∉ [11%nat; 12%nat]). intros Hin.
    repeat (apply elem_of_cons in Hin as [Heq|Hin]; [discriminate Heq|]).
    apply elem_of_nil in Hin. exact Hin.
Defined.

(** X11: the children list never holds a stage twice: [add_children] and
    [remove_children] both keep a list without duplicates so. *)
Theorem children_stay_duplicate_free :
  ∀ (w w' : World) (self stage : nat) (name : string),
    NoDup (Stage_children w) →
    (Stage.add_children self name stage w = Done w'
     ∨ Stage.remove_children self stage w = Done w') →
    NoDup (Stage_children w').
Proof.
  intros w w' self stage name Hnodup [Hadd|Hrem].
  - unfold Stage.add_children in Hadd.
    destruct (bool_decide (stage ∉ Stage._children w self)) eqn:Hmem.
    + apply bool_decide_eq_true in Hmem. injection Hadd as <-. simpl.
      apply NoDup_app. split; [exact Hnodup|]. split.
      * intros x Hx Hx'. apply list_elem_of_singleton in Hx' as ->.
        apply Hmem. exact Hx.
      * apply NoDup_singleton.
    + injection Hadd as <-. exact Hnodup.
  - unfold Stage.remove_children, Stage._children in Hrem.
    destruct (decide (stage ∈ Stage_children w)) as [Hin|Hout].
    + destruct (list_remove_member stage (Stage_children w) Hin)
        as (pre & tl & Hsplit & _ & Heq).
      rewrite Heq in Hrem. injection Hrem as <-. simpl.
      rewrite Hsplit in Hnodup.
      apply NoDup_app in Hnodup as (Hpre & Hdisj & Htl).
      apply NoDup_cons in Htl as [_ Htl].
      apply NoDup_app. split; [exact Hpre|]. split; [|exact Htl].
      intros x Hx Hx'. apply (Hdisj x Hx). apply list_elem_of_further. exact Hx'.
    + rewrite (list_remove_absent _ _ Hout) in Hrem. discriminate Hrem.
Qed.

Lemma children_stay_duplicate_free_witness :
  ∃ w', Stage.add_children 10 "X" 11 fresh_world = Done w'
        ∧ NoDup (Stage_children w').
Proof.
  eexists. split; [reflexivity|].
  apply (children_stay_duplicate_free fresh_world _ 10 11 "X").
  - apply NoDup_nil_2.
  - left. reflexivity.
Defined.

(** ** More on the stage list *)

Lemma py_index_head {A} (x : A) (l : list A) : py_index (x :: l) 0 = Some x.
Proof.
  change (py_index (x :: l) 0)
    with (py_index ([] ++ x :: l)%list (Z.of_nat (length (@nil A)))).
  apply py_index_middle.
Qed.

(** X12: [add_stage], called with no index or with an index that a C
    [ssize_t] holds, succeeds exactly when the stage list is not empty, the
    name is not the name of its first entry, the processor is not running
    and the object is a [Stage]; the list then holds the old entries and
    the new one, last when no index is given.  Names of later entries are
    not looked at. *)
Theorem add_stage_succeeds_exactly_when :
  ∀ (self : ProcessorObj) (name : string) (stage : pyobj) (index : option Z),
    (∀ self', Processor.add_stage name stage index self = Ok self' →
       ∃ first rest a,
         _stages self = first :: rest ∧ name ≠ first.1
         ∧ running self = false ∧ stage = StageRef a
         ∧ _stages self' ≡ₚ (name, a) :: _stages self
         ∧ running self' = false
         ∧ (index = None → _stages self' = (_stages self ++ [(name, a)])%list))
    ∧ (∀ first rest a,
         ssize_t_index index →
         _stages self = first :: rest → name ≠ first.1 →
         running self = false → stage = StageRef a →
         ∃ self', Processor.add_stage name stage index self = Ok self').
Proof.
  intros self name stage index. unfold Processor.add_stage. split.
  - intros self' Hok.
    destruct (_stages self) as [|first rest] eqn:Hstages; [discriminate Hok|].
    rewrite py_index_head in Hok. unfold Processor.name_in_entry in Hok.
    destruct (String.eqb_spec name first.1) as [Heq|Hne]; [discriminate Hok|].
    simpl in Hok. destruct (running self) eqn:Hrun; [discriminate Hok|].
    destruct stage as [a|v]; [|discriminate Hok].
    exists first, rest, a. repeat (split; [first [reflexivity | assumption]|]).
    destruct index as [i|]; injection Hok as <-;
      unfold Processor.with_stages; cbn [_stages running].
    + split; [apply py_insert_perm|]. split; [exact Hrun | discriminate].
    + split; [symmetry; apply Permutation_cons_append|].
      split; [exact Hrun | reflexivity].
  - intros first rest a _ Hstages Hne Hrun ->.
    rewrite Hstages, py_index_head. unfold Processor.name_in_entry.
    destruct (String.eqb_spec name first.1) as [Heq|_]; [contradiction|].
    simpl. rewrite Hrun. destruct index; eexists; reflexivity.
Qed.

Lemma add_stage_succeeds_exactly_when_witness :
  ∃ self', Processor.add_stage "b" (StageRef 3) (Some 0) two_stage_processor
           = Ok self'
           ∧ _stages self' = [("b", 3%nat); ("a", 1%nat); ("b", 2%nat)].
Proof.
  destruct (proj2 (add_stage_succeeds_exactly_when two_stage_processor "b"
                     (StageRef 3) (Some 0)) ("a", 1%nat) [("b", 2%nat)] 3%nat)
    as [self' Hok]; try reflexivity.
  - unfold ssize_t_index. lia.
  - discriminate.
  - exists self'. split; [exact Hok|].
    vm_compute in Hok. injection Hok as <-. reflexivity.
Defined.

(** X13: [get_index] raises [TypeError] for every processor and name (its
    loop iterates over an integer), so [remove_stage] never removes: it
    raises [RuntimeError] during a run and [TypeError] otherwise. *)
Theorem remove_stage_never_removes :
  ∀ (self : ProcessorObj) (name : string),
    Processor.get_index name self = Raise TypeError
    ∧ Processor.remove_stage name self
      = Raise (if running self
               then RuntimeError "Pipeline running, cannot remove stages."
               else TypeError).
Proof.
  intros self name. split; [reflexivity|].
  unfold Processor.remove_stage. destruct (running self); reflexivity.
Qed.

Lemma try_edit_keeps_empty (self : ProcessorObj) (e : stage_edit) :
  _stages self = [] → try_edit self e = self.
Proof.
  intros Hempty. destruct e as [name stage index|name]; simpl.
  - unfold Processor.add_stage. rewrite Hempty. reflexivity.
  - unfold Processor.remove_stage. destruct (running self); reflexivity.
Qed.

(** X14: the stage list of [Processor()] cannot be filled through the
    methods: after any sequence of [add_stage] and [remove_stage] calls,
    each allowed to fail, a processor that started with an empty list is
    exactly as it was, and [run] then raises the [ValueError] of the
    pipeline without stages, without touching the state. *)
Theorem no_pipeline_through_add_stage :
  ∀ (edits : list stage_edit) (w : World)
    (run_method : nat → nat → pyval → pyval → World → outcome) (fuel : nat),
    _stages (processor w) = [] →
    foldl try_edit (processor w) edits = processor w
    ∧ Processor.run run_method fuel
        (with_processor (foldl try_edit (processor w) edits) w)
      = Some (Raised (ValueError "This pipeline has no stages.")
                (with_processor (foldl try_edit (processor w) edits) w)).
Proof.
  intros edits w run_method fuel Hempty.
  assert (Hfix : foldl try_edit (processor w) edits = processor w).
  { induction edits as [|e edits IH]; simpl; [reflexivity|].
    rewrite (try_edit_keeps_empty _ e Hempty). exact IH. }
  split; [exact Hfix|]. rewrite Hfix.
  unfold Processor.run, Processor.number_of_stages. simpl processor.
  rewrite Hempty. reflexivity.
Qed.

Lemma no_pipeline_through_add_stage_witness :
  foldl try_edit (processor fresh_world)
    [AddStage "bias" (StageRef 1) None; AddStage "flat" (StageRef 2) (Some 0);
     RemoveStage "bias"]
  = processor fresh_world.
Proof.
  apply (no_pipeline_through_add_stage
           [AddStage "bias" (StageRef 1) None;
            AddStage "flat" (StageRef 2) (Some 0); RemoveStage "bias"]
           fresh_world passive_run 5).
  reflexivity.
Defined.

(** X15: [run] checks its two preconditions before it sets [running]: with
    no product in the manager (and at least one stage) it raises the
    [ValueError] of the pipeline without products and leaves the state as it
    was, [running] included, with no stage called. *)
Theorem run_without_products :
  ∀ (w : World) (run_method : nat → nat → pyval → pyval → World → outcome)
    (fuel : nat),
    _stages (processor w) ≠ [] →
    products (prod_manager (processor w)) = [] →
    Processor.run run_method fuel w
    = Some (Raised (ValueError "This pipeline has no products.") w).
Proof.
  intros w run_method fuel Hstages Hprods.
  unfold Processor.run, Processor.number_of_stages,
    ProductManager.number_of_products.
  destruct (_stages (processor w)) as [|e es]; [contradiction|].
  simpl length.
  replace (Z.of_nat (S (length es)) =? 0)%Z with false
    by (symmetry; apply Z.eqb_neq; lia).
  rewrite Hprods. reflexivity.
Qed.

Lemma run_without_products_witness :
  Processor.run passive_run 0
    (with_processor two_stage_processor fresh_world)
  = Some (Raised (ValueError "This pipeline has no products.")
            (with_processor two_stage_processor fresh_world)).
Proof.
  apply (run_without_products
           (with_processor two_stage_processor fresh_world) passive_run 0).
  - discriminate.
  - reflexivity.
Defined.

(** ** More on running the pipeline *)

Lemma dict_lookup_keys (d : dict) (name : string) :
  name ∈ dict_keys d ↔ is_Some (dict_lookup d name).
Proof.
  induction d as [|[k v] d IH]; simpl.
  - split; [intros Hin; apply elem_of_nil in Hin; contradiction|].
    intros [x Hx]. discriminate Hx.
  - destruct (String.eqb_spec name k) as [->|Hne].
    + split; [intros _; eexists; reflexivity | intros _; apply list_elem_of_here].
    + rewrite <- IH. split.
      * intros Hin. apply elem_of_cons in Hin as [Heq|Hin]; [contradiction|exact Hin].
      * intros Hin. apply list_elem_of_further. exact Hin.
Qed.

(** The configuration [run] resolves for a stage name when [self.config]
    is bound to a dictionary. *)
Lemma resolve_config (self : ProcessorObj) (d : dict) (name : string) :
  dict_lookup (bound self) "config" = Some (VDict d) →
  (c ←! Processor.config self;
   keys ←! py_keys c;
   if bool_decide (name ∈ keys)
   then (c' ←! Processor.config self; py_getitem c' name)
   else Ok VNone)
  = Ok (config_for d name).
Proof.
  intros Hbound. unfold Processor.config, config_for. rewrite Hbound.
  cbn [bind py_keys py_getitem].
  destruct (dict_lookup d name) as [v|] eqn:Hlook.
  - rewrite bool_decide_eq_true_2
      by (apply dict_lookup_keys; rewrite Hlook; eexists; reflexivity).
    reflexivity.
  - rewrite bool_decide_eq_false_2; [reflexivity|].
    intros Hin. apply dict_lookup_keys in Hin as [x Hx].
    rewrite Hlook in Hx. discriminate Hx.
Qed.

(** One turn of the [while] loop of [run]. *)
Lemma run_stages_step (run_method : nat → nat → pyval → pyval → World → outcome)
  (f prod : nat) (w : World) (pre rest : list (string * nat)) (name : string)
  (s : nat) (d : dict) :
  _stages (processor w) = (pre ++ (name, s) :: rest)%list →
  _processing_stage (processor w) = Some (Z.of_nat (length pre)) →
  dict_lookup (bound (processor w)) "config" = Some (VDict d) →
  Processor.run_stages run_method (S f) prod w
  = match Stage.__call__ run_method f s prod (config_for d name)
            (instrument (processor w))
            (with_processor
               (Processor.with_pointer
                  (Some (Z.of_nat (length (pre ++ [(name, s)])%list)))
                  (processor w)) w) with
    | Some (Done w2) => Processor.run_stages run_method f prod w2
    | r => r
    end.
Proof.
  intros Hstages Hptr Hbound.
  cbn [Processor.run_stages]. rewrite Hptr.
  unfold Processor.number_of_stages. rewrite Hstages.
  replace (Z.of_nat (length pre)
           <? Z.of_nat (length (pre ++ (name, s) :: rest)%list))%Z with true
    by (symmetry; apply Z.ltb_lt; rewrite length_app; simpl length; lia).
  rewrite py_index_middle.
  rewrite (resolve_config _ d name) by exact Hbound.
  replace (Z.of_nat (length (pre ++ [(name, s)])%list))
    with (Z.of_nat (length pre) + 1)%Z
    by (rewrite length_app; simpl length; lia).
  reflexivity.
Qed.




Section QuietStages.

Variable run_method : nat → nat → pyval → pyval → World → outcome.

(** Every [run] override returns normally and touches neither the
    processor nor the children list (nor, being code of the program, the
    ghost log). *)
Hypothesis quiet :
  ∀ self product config inst w,
    ∃ w', run_method self product config inst w = Done w'
          ∧ processor w' = processor w
          ∧ Stage_children w' = Stage_children w
          ∧ calls w' = calls w.




End QuietStages.


(** X17: an exception raised by the [run] of the first stage leaves [run]
    through the loop: [run] ends with that exception, [running] is left set
    and the pointer is left at 1.  The processor then refuses
    [remove_stage] as if a run were in progress and accepts
    [set_current_stage] outside any run. *)
Theorem run_stage_exception_leaves_running :
  ∀ (run_method : nat → nat → pyval → pyval → World → outcome) (w : World)
    (d : dict) (fuel : nat) (name : string) (s : nat)
    (rest : list (string * nat)) (p : nat) (ps : list nat) (e : exn),
    _stages (processor w) = (name, s) :: rest →
    products (prod_manager (processor w)) = p :: ps →
    dict_lookup (bound (processor w)) "config" = Some (VDict d) →
    (∀ prod conf inst w0,
       ∃ w1, run_method s prod conf inst w0 = Raised e w1
             ∧ processor w1 = processor w0) →
    (3 ≤ fuel)%nat →
    ∃ w', Processor.run run_method fuel w = Some (Raised e w')
          ∧ running (processor w') = true
          ∧ _processing_stage (processor w') = Some 1
          ∧ Processor.remove_stage name (processor w')
            = Raise (RuntimeError "Pipeline running, cannot remove stages.")
          ∧ Processor.set_current_stage 0 (processor w')
            = Ok (Processor.with_pointer (Some 0) (processor w')).
Proof.
  intros run_method w d fuel name s rest p ps e Hstages Hprods Hbound Hraise Hfuel.
  destruct fuel as [|[|[|f]]]; try lia.
  unfold Processor.run, Processor.number_of_stages,
    ProductManager.number_of_products.
  rewrite Hstages, Hprods. simpl length.
  replace (Z.of_nat (S (length rest)) =? 0)%Z with false
    by (symmetry; apply Z.eqb_neq; lia).
  replace (Z.of_nat (S (length ps)) =? 0)%Z with false
    by (symmetry; apply Z.eqb_neq; lia).
  cbn [Processor.run_products]. simpl products. rewrite Hprods. simpl lookup.
  cbv iota beta.
  rewrite (run_stages_step run_method _ p _ [] rest name s d);
    [|exact Hstages|reflexivity|exact Hbound].
  cbn [Stage.__call__].
  match goal with
  | |- context [run_method s p ?c ?i ?w0] =>
      destruct (Hraise p c i w0) as (w1 & -> & Hproc)
  end.
  exists w1. split; [reflexivity|]. rewrite Hproc. simpl.
  split; [reflexivity|]. split; [reflexivity|]. split; reflexivity.
Qed.

Lemma run_stage_exception_leaves_running_witness :
  ∃ w', Processor.run Stage.run 3 abc_world_configured
        = Some (Raised (NotImplementedError "Stage not implemented.") w')
        ∧ running (processor w') = true
        ∧ _processing_stage (processor w') = Some 1
        ∧ Processor.remove_stage "A" (processor w')
          = Raise (RuntimeError "Pipeline running, cannot remove stages.")
        ∧ Processor.set_current_stage 0 (processor w')
          = Ok (Processor.with_pointer (Some 0) (processor w')).
Proof.
  apply (run_stage_exception_leaves_running Stage.run abc_world_configured
           [("A", VDict [("gain", VInt 2)]); ("C", VDict [("bias", VInt 5)])]
           3 "A" 1 [("B", 2%nat); ("C", 3%nat)] 7 []
           (NotImplementedError "Stage not implemented.")).
  - reflexivity.
  - reflexivity.
  - reflexivity.
  - intros prod conf inst w0. exists w0. split; reflexivity.
  - lia.
Defined.

Lemma jumper_run_self (s : nat) (target : Z) :
  jumper_run s target s = jump_run target s.
Proof. unfold jumper_run. rewrite Nat.eqb_refl. reflexivity. Qed.

(** While the first stage sends the pointer back to 0 on every call, the
    [while] loop of [run] does not end, whatever the fuel. *)
Lemma run_stages_jump_back (name : string) (s : nat)
  (rest : list (string * nat)) (d : dict) (prod : nat) (fuel : nat) :
  ∀ (w : World),
    _stages (processor w) = (name, s) :: rest →
    _processing_stage (processor w) = Some 0 →
    running (processor w) = true →
    dict_lookup (bound (processor w)) "config" = Some (VDict d) →
    Stage_children w = [] →
    Processor.run_stages (jumper_run s 0) fuel prod w = None.
Proof.
  induction fuel as [|f IH]; intros w Hstages Hptr Hrun Hbound Hleaf;
    [reflexivity|].
  rewrite (run_stages_step _ f prod w [] rest name s d);
    [|exact Hstages|exact Hptr|exact Hbound].
  destruct f as [|f1]; [reflexivity|].
  cbn [Stage.__call__]. rewrite jumper_run_self.
  unfold jump_run, Processor.set_current_stage.
  replace (running (processor (Stage.log_call s (config_for d name)
             (with_processor
                (Processor.with_pointer
                   (Some (Z.of_nat (length ([] ++ [(name, s)])%list)))
                   (processor w)) w)))) with true
    by (symmetry; exact Hrun).
  cbn [negb].
  destruct f1 as [|f2]; [reflexivity|].
  cbn [Stage._run_children]. unfold Stage._children.
  replace (Stage_children (with_processor
             (Processor.with_pointer (Some 0)
                (processor (Stage.log_call s (config_for d name)
                   (with_processor
                      (Processor.with_pointer
                         (Some (Z.of_nat (length ([] ++ [(name, s)])%list)))
                         (processor w)) w))))
             (Stage.log_call s (config_for d name)
                (with_processor
                   (Processor.with_pointer
                      (Some (Z.of_nat (length ([] ++ [(name, s)])%list)))
                      (processor w)) w)))) with (@nil nat)
    by (symmetry; exact Hleaf).
  apply IH; simpl; first [assumption | reflexivity].
Qed.

(** X18: a first stage that calls [set_current_stage(0)] on every call
    keeps [run] in its loop for ever: [run] returns for no amount of
    fuel. *)
Theorem run_never_returns_when_stage_jumps_back :
  ∀ (w : World) (d : dict) (name : string) (s : nat)
    (rest : list (string * nat)) (p : nat) (ps : list nat) (fuel : nat),
    _stages (processor w) = (name, s) :: rest →
    products (prod_manager (processor w)) = p :: ps →
    dict_lookup (bound (processor w)) "config" = Some (VDict d) →
    Stage_children w = [] →
    Processor.run (jumper_run s 0) fuel w = None.
Proof.
  intros w d name s rest p ps fuel Hstages Hprods Hbound Hleaf.
  unfold Processor.run, Processor.number_of_stages,
    ProductManager.number_of_products.
  rewrite Hstages, Hprods. simpl length.
  replace (Z.of_nat (S (length rest)) =? 0)%Z with false
    by (symmetry; apply Z.eqb_neq; lia).
  replace (Z.of_nat (S (length ps)) =? 0)%Z with false
    by (symmetry; apply Z.eqb_neq; lia).
  destruct fuel as [|f]; [reflexivity|].
  cbn [Processor.run_products]. simpl products. rewrite Hprods. simpl lookup.
  cbv iota beta.
  rewrite (run_stages_jump_back name s rest d p f); try reflexivity;
    simpl; first [assumption | reflexivity].
Qed.

Lemma run_never_returns_when_stage_jumps_back_witness :
  Processor.run (jumper_run 1 0) 1000 abc_world_configured = None.
Proof.
  apply (run_never_returns_when_stage_jumps_back abc_world_configured
           [("A", VDict [("gain", VInt 2)]); ("C", VDict [("bias", VInt 5)])]
           "A" 1 [("B", 2%nat); ("C", 3%nat)] 7 [] 1000); reflexivity.
Defined.





(** ** More on the attribute stores and on positional access *)

Lemma Instrument_init_nonempty (depth : nat) (k : string) (v : pyval)
  (rest : dict) :
  Instrument.__init__ depth ((k, v) :: rest) = Raise RecursionError.
Proof.
  unfold Instrument.__init__. simpl. unfold Instrument.store at 2.
  rewrite Instrument_getattribute_raises. simpl.
  induction rest as [|kv rest IH]; simpl; [reflexivity | exact IH].
Qed.

(** X20: the constructors of [Config] and [Instrument] construct an
    instance only when no keyword argument is given, and the instance is
    empty; with any keyword argument the constructor raises
    [RecursionError], since the loop writes to [self.__dict__]. *)
Theorem store_constructed_only_without_kwargs :
  ∀ (depth : nat) (kwargs : dict),
    Config.__init__ depth kwargs
    = match kwargs with
      | [] => Ok []
      | _ :: _ => Raise RecursionError
      end
    ∧ Instrument.__init__ depth kwargs
      = match kwargs with
        | [] => Ok []
        | _ :: _ => Raise RecursionError
        end.
Proof.
  intros depth [|[k v] rest].
  - split; reflexivity.
  - split; [apply Config_init_nonempty | apply Instrument_init_nonempty].
Qed.

(** X21: a [Product] is never writable: every attribute assignment on an
    instance, whatever the instance, the name and the value, raises
    [RecursionError], and so returns no updated instance. *)
Theorem Product_is_never_writable :
  ∀ (depth : nat) (self : dict) (name : string) (value : pyval),
    Product.__setattr__ depth self name value = Raise RecursionError
    ∧ ∀ self', Product.__setattr__ depth self name value ≠ Ok self'.
Proof.
  intros depth self name value.
  assert (H : Product.__setattr__ depth self name value = Raise RecursionError).
  { unfold Product.__setattr__. rewrite Product_getattribute_raises. reflexivity. }
  split; [exact H|]. intros self' Hok. rewrite H in Hok. discriminate Hok.
Qed.

(** X22: [product(index)] accepts the indices from [-count] to [count - 1]
    and returns a member; a negative index counts from the end, so [index]
    and [index + count] give the same product; every other index raises
    [IndexError]. *)
Theorem product_index_range :
  ∀ (self : ManagerObj) (index : Z),
    ((- ProductManager.number_of_products self ≤ index
      < ProductManager.number_of_products self)%Z →
       ∃ p, ProductManager.product index self = Ok p
            ∧ p ∈ products self
            ∧ ((index < 0)%Z →
               ProductManager.product
                 (index + ProductManager.number_of_products self) self = Ok p))
    ∧ ((index < - ProductManager.number_of_products self
        ∨ ProductManager.number_of_products self ≤ index)%Z →
       ProductManager.product index self = Raise IndexError).
Proof.
  intros self index.
  unfold ProductManager.product, ProductManager.number_of_products, py_index.
  set (n := Z.of_nat (length (products self))).
  split.
  - intros Hrange.
    assert (Hget : ∀ k : Z, (0 ≤ k < n)%Z →
              ∃ p, products self !! Z.to_nat k = Some p ∧ p ∈ products self).
    { intros k Hk.
      destruct (lookup_lt_is_Some_2 (products self) (Z.to_nat k)) as [p Hp];
        [unfold n in Hk; lia|].
      exists p. split; [exact Hp|].
      apply list_elem_of_lookup. exists (Z.to_nat k). exact Hp. }
    destruct (Z.ltb_spec index 0) as [Hneg|Hpos].
    + destruct (Hget (n + index)%Z) as (p & Hp & Hin); [lia|].
      exists p.
      replace ((0 <=? index)%Z && (index <? n)%Z) with false
        by (symmetry; apply andb_false_iff; left; apply Z.leb_gt; lia).
      replace (- n <=? index)%Z with true
        by (symmetry; apply Z.leb_le; lia).
      cbn [andb]. rewrite Hp.
      split; [reflexivity|]. split; [exact Hin|]. intros _.
      replace ((0 <=? index + n)%Z && (index + n <? n)%Z) with true
        by (symmetry; apply andb_true_iff; split;
            [apply Z.leb_le | apply Z.ltb_lt]; lia).
      replace (index + n)%Z with (n + index)%Z by lia.
      rewrite Hp. reflexivity.
    + destruct (Hget index) as (p & Hp & Hin); [lia|].
      exists p.
      replace ((0 <=? index)%Z && (index <? n)%Z) with true
        by (symmetry; apply andb_true_iff; split;
            [apply Z.leb_le | apply Z.ltb_lt]; lia).
      rewrite Hp. split; [reflexivity|]. split; [exact Hin|]. intros Hneg. lia.
  - intros Hout.
    replace ((0 <=? index)%Z && (index <? n)%Z) with false
      by (symmetry; apply andb_false_iff;
          destruct Hout; [left; apply Z.leb_gt | right; apply Z.ltb_ge];
          unfold n in *; lia).
    replace ((- n <=? index)%Z && (index <? 0)%Z) with false
      by (symmetry; apply andb_false_iff;
          destruct Hout; [left; apply Z.leb_gt | right; apply Z.ltb_ge];
          unfold n in *; lia).
    reflexivity.
Qed.

Lemma product_index_range_witness :
  (∃ p, ProductManager.product (-1)
          (ProductManager.with_products [5%nat; 3%nat; 8%nat]
             ProductManager.__init__) = Ok p
        ∧ ProductManager.product 2
            (ProductManager.with_products [5%nat; 3%nat; 8%nat]
               ProductManager.__init__) = Ok p)
  ∧ ProductManager.product 3
      (ProductManager.with_products [5%nat; 3%nat; 8%nat]
         ProductManager.__init__) = Raise IndexError.
Proof.
  split.
  - destruct (proj1 (product_index_range
                (ProductManager.with_products [5%nat; 3%nat; 8%nat]
                   ProductManager.__init__) (-1)))
      as (p & H1 & _ & H3).
    + unfold ProductManager.number_of_products. simpl. lia.
    + exists p. split; [exact H1|]. apply H3. lia.
  - apply (proj2 (product_index_range
             (ProductManager.with_products [5%nat; 3%nat; 8%nat]
                ProductManager.__init__) 3)).
    right. unfold ProductManager.number_of_products. simpl. lia.
Defined.



(** ** The shared children list and what a call dispatches *)

Section UntouchedState.

Variable run_method : nat → nat → pyval → pyval → World → outcome.

(** The [run] overrides return normally and leave the state as it is. *)
Hypothesis run_pure :
  ∀ self product config inst w,
    run_method self product config inst w = Done w.


End UntouchedState.



